(** * Resource-group states of the Azure (ARM) resource state module

    A shallow embedding of [resource_group_present] and
    [resource_group_absent] from
    [states/azure/resource/azurearm_resource.py], together with the
    properties the specification states about them.

    Python values are a small tagged union, dictionaries are finite maps
    with string keys, the calls into the execution module ([__salt__]) are
    state transformers over an abstract cloud that also record every call,
    and an exception is an explicit outcome. *)

From stdpp Require Import gmap strings list fin_maps.

(** ** Python values *)

#[warnings="-register-all"]
Inductive value : Type :=
  | VNone
  | VBool (b : bool)
  | VStr (s : string)
  | VDict (d : gmap string value).

Abbreviation dict := (gmap string value).

Global Instance value_eq_dec : EqDecision value.
Proof.
  refine (fix go (v1 v2 : value) {struct v1} : Decision (v1 = v2) :=
    let _ : EqDecision value := @go in
    match v1, v2 with
    | VNone, VNone => left _
    | VBool b1, VBool b2 => cast_if (decide (b1 = b2))
    | VStr s1, VStr s2 => cast_if (decide (s1 = s2))
    | VDict d1, VDict d2 => cast_if (decide (d1 = d2))
    | _, _ => right _
    end); abstract congruence.
Defined.

(** Truth value of an object, as [if x:], [not x] and [x or y] use it. *)
Definition truthy (v : value) : bool :=
  match v with
  | VNone => false
  | VBool b => b
  | VStr s => negb (bool_decide (s = ""))
  | VDict d => negb (bool_decide (d = ∅))
  end.

(** [a or b] *)
Definition py_or (a b : value) : value := if truthy a then a else b.

(** [d.get(k, dflt)] *)
Definition dict_get (d : dict) (k : string) (dflt : value) : value :=
  default dflt (d !! k).

(** [isinstance(v, dict)] *)
Definition is_dict (v : value) : bool :=
  match v with VDict _ => true | _ => false end.

(** ** Exceptions and the calls into the execution module *)

Inductive exn : Type := TypeError.

Inductive outcome (A : Type) : Type :=
  | Ret (a : A)
  | Raise (e : exn).
Arguments Ret {A} a.
Arguments Raise {A} e.

(** One entry per call through [__salt__], with the arguments it was given:
    the positional ones, the explicit keywords, and the mapping that was
    unpacked with [**]. *)
Inductive call : Type :=
  | CheckExistence (name : string) (kw : dict)
  | Get (name : string) (kw : dict)
  | CreateOrUpdate (name : string) (location managed_by tags : value) (kw : dict)
  | Delete (name : string) (kw : dict).

Definition is_mutating (c : call) : bool :=
  match c with
  | CreateOrUpdate _ _ _ _ _ | Delete _ _ => true
  | CheckExistence _ _ | Get _ _ => false
  end.

Definition is_create_or_update (c : call) : bool :=
  match c with CreateOrUpdate _ _ _ _ _ => true | _ => false end.

Definition is_check_existence (c : call) : bool :=
  match c with CheckExistence _ _ => true | _ => false end.

Definition mutation_count (l : list call) : nat := length (List.filter is_mutating l).

(** Every mutating call in the list has a successor, and that successor is
    an existence check. *)
Fixpoint mutations_verified (l : list call) : bool :=
  match l with
  | [] => true
  | c :: rest =>
      (if is_mutating c
       then match rest with
            | c' :: _ => is_check_existence c'
            | [] => false
            end
       else true) && mutations_verified rest
  end.

(** The resource group client: the four functions of the execution module
    the states call, over a cloud state [S] they read and change. Their
    result types are those of the interface: existence and deletion answer
    with a boolean, the other two with a resource group record (a
    dictionary, holding an [error] entry when the request failed). *)
Record Client (S : Type) : Type := {
  resource_group_check_existence : string → dict → S → bool * S;
  resource_group_get : string → dict → S → dict * S;
  resource_group_create_or_update :
    string → value → value → value → dict → S → dict * S;
  resource_group_delete : string → dict → S → bool * S
}.
Arguments resource_group_check_existence {S} _ _ _ _.
Arguments resource_group_get {S} _ _ _ _.
Arguments resource_group_create_or_update {S} _ _ _ _ _ _ _.
Arguments resource_group_delete {S} _ _ _ _.

(** The world a state function runs in: the cloud behind the client and the
    calls made so far, oldest first. *)
Record world (S : Type) : Type := World {
  cloud : S;
  calls : list call
}.
Arguments World {S} _ _.
Arguments cloud {S} _.
Arguments calls {S} _.

Definition start {S : Type} (c : S) : world S := World c [].

(** State and exception monad of the state functions. *)
Definition M (S A : Type) : Type := world S → outcome A * world S.

Global Instance M_ret {S} : MRet (M S) := λ A a w, (Ret a, w).

Global Instance M_bind {S} : MBind (M S) := λ A B f m w,
  match m w with
  | (Ret a, w') => f a w'
  | (Raise e, w') => (Raise e, w')
  end.

Definition raise {S A} (e : exn) : M S A := λ w, (Raise e, w).

Definition lift {S A} (o : outcome A) : M S A := λ w, (o, w).

(** Keys of the returned dictionary and of a change set. *)
Definition ret_keys : gset string := {[ "name"; "result"; "comment"; "changes" ]}.
Definition old_new : gset string := {[ "old"; "new" ]}.

Section States.

Context {S : Type}.

(** [__salt__]: the injected client. *)
Variable salt : Client S.

(** [__utils__['dictdiffer.deep_diff']]: the structural diff utility. It
    lives outside this module; it answers with a dictionary or raises. *)
Variable deep_diff : value → value → outcome dict.

(** [__opts__['test']]: the dry-run flag. *)
Variable opts_test : bool.

(** [str(d)] for a dictionary [d]. The text depends on insertion order,
    which a finite map does not keep, so it is left open. *)
Variable dict_repr : dict → string.

(** What ['{0}'.format(v)] inserts for [v]. *)
Definition str_of (v : value) : string :=
  match v with
  | VNone => "None"
  | VBool true => "True"
  | VBool false => "False"
  | VStr s => s
  | VDict d => dict_repr d
  end.

Definition salt_check_existence (name : string) (kw : dict) : M S bool :=
  λ w, let '(b, c) := resource_group_check_existence salt name kw (cloud w) in
       (Ret b, World c (calls w ++ [CheckExistence name kw])).

Definition salt_get (name : string) (kw : dict) : M S dict :=
  λ w, let '(g, c) := resource_group_get salt name kw (cloud w) in
       (Ret g, World c (calls w ++ [Get name kw])).

(** A call that names [managed_by] and [tags] explicitly and unpacks a
    mapping holding one of these keys as well is rejected by Python with
    a [TypeError] before the callee runs. (Whether an unpacked key collides
    with a positional parameter depends on the callee's signature and stays
    with the client.) *)
Definition keyword_repeated (kw : dict) : bool :=
  bool_decide (is_Some (kw !! "managed_by")) || bool_decide (is_Some (kw !! "tags")).

Definition salt_create_or_update (name : string) (location managed_by tags : value)
    (kw : dict) : M S dict :=
  if keyword_repeated kw then raise TypeError
  else
    λ w, let '(g, c) :=
           resource_group_create_or_update salt name location managed_by tags kw (cloud w) in
         (Ret g, World c (calls w ++ [CreateOrUpdate name location managed_by tags kw])).

Definition salt_delete (name : string) (kw : dict) : M S bool :=
  λ w, let '(b, c) := resource_group_delete salt name kw (cloud w) in
       (Ret b, World c (calls w ++ [Delete name kw])).

(** Lines 188-210 of [resource_group_present]: the code both the "absent"
    and the "tags differ" branches fall through to. [ret] is the result
    dictionary as it stands when control arrives. *)
Definition create_and_verify (name : string) (location managed_by tags : value)
    (connection_auth kwargs : dict) (ret : dict) : M S dict :=
  let group_kwargs := connection_auth ∪ kwargs in
  group ← salt_create_or_update name location managed_by tags group_kwargs;
  present ← salt_check_existence name connection_auth;
  if (present : bool) then
    let ret := <["result" := VBool true]> ret in
    let ret := <["comment" := VStr ("Resource group " +:+ name +:+ " has been created.")]> ret in
    let ret := <["changes" := VDict {[ "old" := VDict ∅; "new" := VDict group ]}]> ret in
    mret ret
  else
    let ret := <["comment" :=
      VStr ("Failed to create resource group " +:+ name +:+ "! ("
            +:+ str_of (dict_get group "error" VNone) +:+ ")")]> ret in
    mret ret.

Definition resource_group_present (name : string) (location managed_by tags : value)
    (connection_auth : value) (kwargs : dict) : M S dict :=
  let ret : dict :=
    {[ "name" := VStr name; "result" := VBool false;
       "comment" := VStr ""; "changes" := VDict ∅ ]} in
  match connection_auth with
  | VDict auth =>
      present ← salt_check_existence name auth;
      if (present : bool) then
        group ← salt_get name auth;
        changes ← lift (deep_diff (dict_get group "tags" (VDict ∅)) (py_or tags (VDict ∅)));
        let ret := <["changes" := VDict changes]> ret in
        if negb (truthy (VDict changes)) then
          let ret := <["result" := VBool true]> ret in
          let ret := <["comment" :=
            VStr ("Resource group " +:+ name +:+ " is already present.")]> ret in
          mret ret
        else if opts_test then
          let ret := <["comment" :=
            VStr ("Resource group " +:+ name +:+ " tags would be updated.")]> ret in
          let ret := <["result" := VNone]> ret in
          let ret := <["changes" :=
            VDict {[ "old" := dict_get group "tags" (VDict ∅); "new" := tags ]}]> ret in
          mret ret
        else create_and_verify name location managed_by tags auth kwargs ret
      else if opts_test then
        let ret := <["comment" :=
          VStr ("Resource group " +:+ name +:+ " would be created.")]> ret in
        let ret := <["result" := VNone]> ret in
        let ret := <["changes" :=
          VDict {[ "old" := VDict ∅;
                   "new" := VDict {[ "name" := VStr name; "location" := location;
                                     "managed_by" := managed_by; "tags" := tags ]} ]}]> ret in
        mret ret
      else create_and_verify name location managed_by tags auth kwargs ret
  | _ =>
      mret (<["comment" :=
        VStr "Connection information must be specified via connection_auth dictionary!"]> ret)
  end.

Definition resource_group_absent (name : string) (connection_auth : value) : M S dict :=
  let ret : dict :=
    {[ "name" := VStr name; "result" := VBool false;
       "comment" := VStr ""; "changes" := VDict ∅ ]} in
  match connection_auth with
  | VDict auth =>
      present ← salt_check_existence name auth;
      if negb present then
        let ret := <["result" := VBool true]> ret in
        let ret := <["comment" :=
          VStr ("Resource group " +:+ name +:+ " is already absent.")]> ret in
        mret ret
      else if opts_test then
        group ← salt_get name auth;
        let ret := <["comment" :=
          VStr ("Resource group " +:+ name +:+ " would be deleted.")]> ret in
        let ret := <["result" := VNone]> ret in
        let ret := <["changes" := VDict {[ "old" := VDict group; "new" := VDict ∅ ]}]> ret in
        mret ret
      else
        group ← salt_get name auth;
        deleted ← salt_delete name auth;
        present ← (if (deleted : bool) then mret false
                   else salt_check_existence name auth);
        if negb present then
          let ret := <["result" := VBool true]> ret in
          let ret := <["comment" :=
            VStr ("Resource group " +:+ name +:+ " has been deleted.")]> ret in
          let ret := <["changes" := VDict {[ "old" := VDict group; "new" := VDict ∅ ]}]> ret in
          mret ret
        else
          mret (<["comment" :=
            VStr ("Failed to delete resource group " +:+ name +:+ "!")]> ret)
  | _ =>
      mret (<["comment" :=
        VStr "Connection information must be specified via connection_auth dictionary!"]> ret)
  end.

End States.

(** ** Models of the collaborators *)

(** Modelled from the spec: the structural diff utility
    ([dictdiffer.deep_diff], reached through [__utils__]) is not part of
    this module. The specification describes it as a structural diff that
    compares two key-to-string mappings and is empty exactly when they are
    equal; the entries of the first mapping that the second does not hold
    are reported under [old], those of the second that the first does not
    hold under [new], and a side with nothing to report is left out. Values
    are compared as wholes, which for string values is the structural
    comparison. Arguments that are not mappings are outside that interface
    and are answered with [TypeError]. *)
Definition differing (d other : dict) : dict :=
  filter (λ kv, other !! kv.1 ≠ Some kv.2) d.

Definition dictdiffer_deep_diff (old new : value) : outcome dict :=
  match old, new with
  | VDict o, VDict n =>
      let o' := differing o n in
      let n' := differing n o in
      Ret ((if decide (o' = ∅) then ∅ else {[ "old" := VDict o' ]})
           ∪ (if decide (n' = ∅) then ∅ else {[ "new" := VDict n' ]}))
  | _, _ => Raise TypeError
  end.

(** Modelled from the spec: the resource group client is the execution
    module, which is not part of this module. This one keeps the groups in
    a map from names to records and applies every request: creating or
    updating stores the record built from the arguments (an argument that
    is [None] leaves no entry), deleting removes it. *)
Definition group_record (name : string) (location managed_by tags : value) : dict :=
  let g : dict := {[ "name" := VStr name; "location" := location ]} in
  let g := if decide (managed_by = VNone) then g else <["managed_by" := managed_by]> g in
  if decide (tags = VNone) then g else <["tags" := tags]> g.

Definition memory_client : Client (gmap string dict) := {|
  resource_group_check_existence name _ c := (bool_decide (is_Some (c !! name)), c);
  resource_group_get name _ c :=
    (default {[ "error" := VStr "Resource group not found." ]} (c !! name), c);
  resource_group_create_or_update name location managed_by tags _ c :=
    let g := group_record name location managed_by tags in (g, <[name := g]> c);
  resource_group_delete name _ c := (bool_decide (is_Some (c !! name)), delete name c)
|}.

(** Modelled from the spec: a client that answers from a script, for the
    runs in which the cloud does not follow the request (a rejected
    creation, a deletion that is accepted and not carried out). Existence
    checks consume the scripted answers in order. *)
Record script : Type := Script {
  existence_answers : list bool;
  get_answer : dict;
  create_answer : dict;
  delete_answer : bool
}.

Definition scripted_client : Client script := {|
  resource_group_check_existence _ _ s :=
    (default false (head (existence_answers s)),
     Script (tail (existence_answers s)) (get_answer s) (create_answer s) (delete_answer s));
  resource_group_get _ _ s := (get_answer s, s);
  resource_group_create_or_update _ _ _ _ _ s := (create_answer s, s);
  resource_group_delete _ _ s := (delete_answer s, s)
|}.

(** How a dictionary is printed is immaterial to the runs below. *)
Definition opaque_repr (d : dict) : string := "{...}".

(** Unfolds one run of a state function down to the client's answers, and
    feeds it one answer. *)
Ltac run :=
  cbv [resource_group_present resource_group_absent create_and_verify
       salt_check_existence salt_get salt_create_or_update salt_delete
       lift raise mbind M_bind mret M_ret start cloud calls].

Ltac answer H := rewrite H; cbv beta iota delta [negb orb cloud calls].

(** Splits a run on every answer the client, the diff utility and the
    keyword check can give. *)
Ltac case_answers :=
  repeat (cbv beta iota delta [negb orb cloud calls];
    match goal with
    | |- context [resource_group_check_existence ?s ?n ?a ?c] =>
        destruct (resource_group_check_existence s n a c) as [[] ?] eqn:?
    | |- context [resource_group_get ?s ?n ?a ?c] =>
        destruct (resource_group_get s n a c) as [? ?] eqn:?
    | |- context [resource_group_delete ?s ?n ?a ?c] =>
        destruct (resource_group_delete s n a c) as [[] ?] eqn:?
    | |- context [resource_group_create_or_update ?s ?n ?lo ?m ?t ?a ?c] =>
        destruct (resource_group_create_or_update s n lo m t a c) as [? ?] eqn:?
    | |- context [keyword_repeated ?kw] =>
        destruct (keyword_repeated kw) eqn:?
    | |- context [truthy (VDict ?d)] =>
        destruct (truthy (VDict d)) eqn:?
    | |- context [match ?dd ?a ?b with Ret _ => _ | Raise _ => _ end] =>
        destruct (dd a b) as [?|?] eqn:?
    end).

(** Rewrites the cloud a read leaves behind to the cloud it was given. *)
Ltac keep_cloud Hreads :=
  repeat match goal with
  | H : resource_group_check_existence ?s ?n ?a ?c = (_, ?c') |- _ =>
      tryif constr_eq c c' then fail else
        (let E := fresh in
         pose proof (proj1 (Hreads n a c)) as E; rewrite H in E; cbn in E; subst c')
  | H : resource_group_get ?s ?n ?a ?c = (_, ?c') |- _ =>
      tryif constr_eq c c' then fail else
        (let E := fresh in
         pose proof (proj2 (Hreads n a c)) as E; rewrite H in E; cbn in E; subst c')
  end.

(** The result dictionary with its four entries. *)
Definition result_dict (name : string) (result : value) (comment : string)
    (changes : dict) : dict :=
  {[ "name" := VStr name; "result" := result;
     "comment" := VStr comment; "changes" := VDict changes ]}.

Definition a1 : dict := {[ "a" := VStr "1" ]}.
Definition a1b2 : dict := {[ "a" := VStr "1"; "b" := VStr "2" ]}.

(** ** Vocabulary of the properties *)

(** A change is due: the group is missing, or it exists and the diff of
    its tags against the desired ones is not empty. [c'] is the cloud as
    the reads that establish this leave it. *)
Definition change_needed {S} (salt : Client S) (deep_diff : value → value → outcome dict)
    (name : string) (tags : value) (auth : dict) (c c' : S) : Prop :=
  resource_group_check_existence salt name auth c = (false, c')
  ∨ ∃ c1 g ch,
      resource_group_check_existence salt name auth c = (true, c1)
      ∧ resource_group_get salt name auth c1 = (g, c')
      ∧ deep_diff (dict_get g "tags" (VDict ∅)) (py_or tags (VDict ∅)) = Ret ch
      ∧ ch ≠ ∅.

(** The two reads leave the cloud as it is. *)
Definition reads_keep_cloud {S} (salt : Client S) : Prop :=
  ∀ n kw c,
    (resource_group_check_existence salt n kw c).2 = c
    ∧ (resource_group_get salt n kw c).2 = c.

(** The client applies a request to create or update: afterwards the group
    exists and the diff of its tags against the requested ones is empty. *)
Definition applies_mutation {S} (salt : Client S) (deep_diff : value → value → outcome dict)
    (name : string) (location managed_by tags : value) (auth kw : dict) : Prop :=
  ∀ c,
    let c' := (resource_group_create_or_update salt name location managed_by tags kw c).2 in
    (resource_group_check_existence salt name auth c').1 = true
    ∧ deep_diff (dict_get (resource_group_get salt name auth c').1 "tags" (VDict ∅))
        (py_or tags (VDict ∅)) = Ret ∅.

(** The fields of a returned dictionary: the four keys, the name that was
    passed in, a result that is [True], [False] or (in a dry run) [None], a
    string as comment, and a dictionary as changes. *)
Definition has_result_fields (name : string) (opts_test : bool) (r : dict) : Prop :=
  dom r = ret_keys
  ∧ r !! "name" = Some (VStr name)
  ∧ (r !! "result" = Some (VBool true)
     ∨ r !! "result" = Some (VBool false)
     ∨ (r !! "result" = Some VNone ∧ opts_test = true))
  ∧ (∃ s, r !! "comment" = Some (VStr s))
  ∧ (∃ ch, r !! "changes" = Some (VDict ch)).

(** Changes that are empty or an [old]/[new] pair. *)
Definition empty_or_old_new (r : dict) : Prop :=
  ∃ ch, r !! "changes" = Some (VDict ch) ∧ (ch = ∅ ∨ dom ch = old_new).



(** The client applies a request to delete: afterwards the existence check
    says the group is gone. *)
Definition applies_deletion {S} (salt : Client S) (name : string) (auth : dict) : Prop :=
  ∀ c,
    (resource_group_check_existence salt name auth
       (resource_group_delete salt name auth c).2).1 = false.

(** What the result and the changes of a returned dictionary tell about the
    calls that were made: a result of [None], or of [True] with no changes,
    means that nothing was requested; a result of [True] with changes means
    that exactly one mutating call was made. *)
Definition tells_what_was_done (r : dict) (log : list call) : Prop :=
  (r !! "result" = Some VNone → mutation_count log = 0)
  ∧ (r !! "result" = Some (VBool true) → r !! "changes" = Some (VDict ∅) →
     mutation_count log = 0)
  ∧ (r !! "result" = Some (VBool true) → r !! "changes" ≠ Some (VDict ∅) →
     mutation_count log = 1).

(** ** Properties *)

(** C5. When [connection_auth] is [None] or anything else that is not a
    dictionary, both state functions return at once: [result] is [False],
    [comment] is the fixed message, [changes] is empty, and the world is
    left as it was, so no client call of any kind has been made. *)
Theorem invalid_connection_auth_rejected
    {S} (salt : Client S) deep_diff opts_test dict_repr
    (name : string) (location managed_by tags connection_auth : value)
    (kwargs : dict) (w : world S) :
  is_dict connection_auth = false →
  resource_group_present salt deep_diff opts_test dict_repr
      name location managed_by tags connection_auth kwargs w
    = (Ret (result_dict name (VBool false)
              "Connection information must be specified via connection_auth dictionary!" ∅),
       w)
  ∧ resource_group_absent salt opts_test name connection_auth w
    = (Ret (result_dict name (VBool false)
              "Connection information must be specified via connection_auth dictionary!" ∅),
       w).
Proof.
  intros Hauth.
  destruct connection_auth; try discriminate Hauth; split; reflexivity.
Qed.

Lemma truthy_empty_dict : truthy (VDict ∅) = false.
Proof. reflexivity. Qed.

Lemma truthy_nonempty_dict (d : dict) : d ≠ ∅ → truthy (VDict d) = true.
Proof. intros Hd. cbn. by rewrite bool_decide_eq_false_2. Qed.

Lemma truthy_dict_false (d : dict) : truthy (VDict d) = false → d = ∅.
Proof.
  cbn. intros Hd. apply negb_false_iff in Hd. by apply bool_decide_eq_true_1 in Hd.
Qed.

Section Runs.

Context {S : Type} (salt : Client S).
Variable deep_diff : value → value → outcome dict.
Variable opts_test : bool.
Variable dict_repr : dict → string.
Variables (name : string) (location managed_by tags : value).
Variables (auth kwargs : dict).

Local Abbreviation present := (resource_group_present salt deep_diff opts_test dict_repr
  name location managed_by tags (VDict auth) kwargs).
Local Abbreviation absent := (resource_group_absent salt opts_test name (VDict auth)).
Local Abbreviation live_tags g := (dict_get g "tags" (VDict ∅)).

(** The fall-through code of [resource_group_present]: one request to
    create or update, one existence check, and a result that follows the
    check. *)
Lemma create_and_verify_run (ret grp : dict) (p : bool) (c c1 c2 : S) (l : list call) :
  keyword_repeated (auth ∪ kwargs) = false →
  resource_group_create_or_update salt name location managed_by tags (auth ∪ kwargs) c
    = (grp, c1) →
  resource_group_check_existence salt name auth c1 = (p, c2) →
  create_and_verify salt dict_repr name location managed_by tags auth kwargs ret (World c l)
  = (Ret (if p
          then <["changes" := VDict {[ "old" := VDict ∅; "new" := VDict grp ]}]>
                 (<["comment" := VStr ("Resource group " +:+ name +:+ " has been created.")]>
                    (<["result" := VBool true]> ret))
          else <["comment" :=
                   VStr ("Failed to create resource group " +:+ name +:+ "! ("
                         +:+ str_of dict_repr (dict_get grp "error" VNone) +:+ ")")]> ret),
     World c2 (l ++ [CreateOrUpdate name location managed_by tags (auth ∪ kwargs);
                     CheckExistence name auth])).
Proof.
  intros Hkw Hcreate Hcheck. run.
  rewrite Hkw, Hcreate, Hcheck, <- app_assoc.
  by destruct p.
Qed.

Lemma create_and_verify_repeated_keyword (ret : dict) (w : world S) :
  keyword_repeated (auth ∪ kwargs) = true →
  create_and_verify salt dict_repr name location managed_by tags auth kwargs ret w
  = (Raise TypeError, w).
Proof. intros Hkw. run. by rewrite Hkw. Qed.

(** The group exists and its tags show no difference. *)
Lemma present_no_drift_run (g : dict) (c c1 c2 : S) (l : list call) :
  resource_group_check_existence salt name auth c = (true, c1) →
  resource_group_get salt name auth c1 = (g, c2) →
  deep_diff (live_tags g) (py_or tags (VDict ∅)) = Ret ∅ →
  present (World c l)
  = (Ret (result_dict name (VBool true)
            ("Resource group " +:+ name +:+ " is already present.") ∅),
     World c2 (l ++ [CheckExistence name auth; Get name auth])).
Proof.
  intros Hcheck Hget Hdiff. run.
  rewrite Hcheck, Hget, Hdiff, <- app_assoc.
  reflexivity.
Qed.

(** The group exists, its tags differ, and the run is a dry run. *)
Lemma present_drift_dry_run (g ch : dict) (c c1 c2 : S) (l : list call) :
  opts_test = true →
  resource_group_check_existence salt name auth c = (true, c1) →
  resource_group_get salt name auth c1 = (g, c2) →
  deep_diff (live_tags g) (py_or tags (VDict ∅)) = Ret ch →
  ch ≠ ∅ →
  present (World c l)
  = (Ret (result_dict name VNone
            ("Resource group " +:+ name +:+ " tags would be updated.")
            {[ "old" := live_tags g; "new" := tags ]}),
     World c2 (l ++ [CheckExistence name auth; Get name auth])).
Proof.
  intros Htest Hcheck Hget Hdiff Hch. run.
  rewrite Hcheck, Hget, Hdiff, Htest, <- app_assoc.
  rewrite (truthy_nonempty_dict ch Hch).
  reflexivity.
Qed.

(** The group exists, its tags differ, and the change is applied. *)
Lemma present_drift_apply_run (g ch grp : dict) (p : bool) (c c1 c2 c3 c4 : S)
    (l : list call) :
  opts_test = false →
  keyword_repeated (auth ∪ kwargs) = false →
  resource_group_check_existence salt name auth c = (true, c1) →
  resource_group_get salt name auth c1 = (g, c2) →
  deep_diff (live_tags g) (py_or tags (VDict ∅)) = Ret ch →
  ch ≠ ∅ →
  resource_group_create_or_update salt name location managed_by tags (auth ∪ kwargs) c2
    = (grp, c3) →
  resource_group_check_existence salt name auth c3 = (p, c4) →
  present (World c l)
  = (Ret (if p
          then result_dict name (VBool true)
                 ("Resource group " +:+ name +:+ " has been created.")
                 {[ "old" := VDict ∅; "new" := VDict grp ]}
          else result_dict name (VBool false)
                 ("Failed to create resource group " +:+ name +:+ "! ("
                  +:+ str_of dict_repr (dict_get grp "error" VNone) +:+ ")")
                 ch),
     World c4 (l ++ [CheckExistence name auth; Get name auth;
                     CreateOrUpdate name location managed_by tags (auth ∪ kwargs);
                     CheckExistence name auth])).
Proof.
  intros Htest Hkw Hcheck Hget Hdiff Hch Hcreate Hcheck'.
  unfold resource_group_present.
  cbv [salt_check_existence salt_get lift mbind M_bind cloud calls].
  rewrite Hcheck, Hget, Hdiff, Htest, (truthy_nonempty_dict ch Hch).
  cbn [negb].
  rewrite (create_and_verify_run _ grp p c2 c3 c4) by done.
  rewrite <- !app_assoc.
  by destruct p.
Qed.

(** The group is missing and the run is a dry run. *)
Lemma present_missing_dry_run (c c1 : S) (l : list call) :
  opts_test = true →
  resource_group_check_existence salt name auth c = (false, c1) →
  present (World c l)
  = (Ret (result_dict name VNone
            ("Resource group " +:+ name +:+ " would be created.")
            {[ "old" := VDict ∅;
               "new" := VDict {[ "name" := VStr name; "location" := location;
                                 "managed_by" := managed_by; "tags" := tags ]} ]}),
     World c1 (l ++ [CheckExistence name auth])).
Proof.
  intros Htest Hcheck. run.
  rewrite Hcheck, Htest.
  reflexivity.
Qed.

(** The group is missing and is created. *)
Lemma present_missing_apply_run (grp : dict) (p : bool) (c c1 c2 c3 : S) (l : list call) :
  opts_test = false →
  keyword_repeated (auth ∪ kwargs) = false →
  resource_group_check_existence salt name auth c = (false, c1) →
  resource_group_create_or_update salt name location managed_by tags (auth ∪ kwargs) c1
    = (grp, c2) →
  resource_group_check_existence salt name auth c2 = (p, c3) →
  present (World c l)
  = (Ret (if p
          then result_dict name (VBool true)
                 ("Resource group " +:+ name +:+ " has been created.")
                 {[ "old" := VDict ∅; "new" := VDict grp ]}
          else result_dict name (VBool false)
                 ("Failed to create resource group " +:+ name +:+ "! ("
                  +:+ str_of dict_repr (dict_get grp "error" VNone) +:+ ")")
                 ∅),
     World c3 (l ++ [CheckExistence name auth;
                     CreateOrUpdate name location managed_by tags (auth ∪ kwargs);
                     CheckExistence name auth])).
Proof.
  intros Htest Hkw Hcheck Hcreate Hcheck'.
  unfold resource_group_present.
  cbv [salt_check_existence mbind M_bind cloud calls].
  rewrite Hcheck, Htest.
  rewrite (create_and_verify_run _ grp p c1 c2 c3) by done.
  rewrite <- !app_assoc.
  by destruct p.
Qed.

(** The diff utility raises: the exception passes through, after the two
    reads. *)
Lemma present_diff_raises_run (g : dict) (e : exn) (c c1 c2 : S) (l : list call) :
  resource_group_check_existence salt name auth c = (true, c1) →
  resource_group_get salt name auth c1 = (g, c2) →
  deep_diff (live_tags g) (py_or tags (VDict ∅)) = Raise e →
  present (World c l)
  = (Raise e, World c2 (l ++ [CheckExistence name auth; Get name auth])).
Proof.
  intros Hcheck Hget Hdiff. run.
  by rewrite Hcheck, Hget, Hdiff, <- app_assoc.
Qed.

(** The group is already gone. *)
Lemma absent_missing_run (c c1 : S) (l : list call) :
  resource_group_check_existence salt name auth c = (false, c1) →
  absent (World c l)
  = (Ret (result_dict name (VBool true)
            ("Resource group " +:+ name +:+ " is already absent.") ∅),
     World c1 (l ++ [CheckExistence name auth])).
Proof. intros Hcheck. run. by answer Hcheck. Qed.

(** The group exists and the run is a dry run. *)
Lemma absent_dry_run (g : dict) (c c1 c2 : S) (l : list call) :
  opts_test = true →
  resource_group_check_existence salt name auth c = (true, c1) →
  resource_group_get salt name auth c1 = (g, c2) →
  absent (World c l)
  = (Ret (result_dict name VNone
            ("Resource group " +:+ name +:+ " would be deleted.")
            {[ "old" := VDict g; "new" := VDict ∅ ]}),
     World c2 (l ++ [CheckExistence name auth; Get name auth])).
Proof.
  intros Htest Hcheck Hget. run.
  answer Hcheck. answer Htest. answer Hget.
  by rewrite <- app_assoc.
Qed.

(** The group exists and the deletion is requested. The existence check
    after it is made only when the deletion answered [False]. *)
Lemma absent_delete_run (g : dict) (deleted p : bool) (c c1 c2 c3 c4 : S) (l : list call) :
  opts_test = false →
  resource_group_check_existence salt name auth c = (true, c1) →
  resource_group_get salt name auth c1 = (g, c2) →
  resource_group_delete salt name auth c2 = (deleted, c3) →
  resource_group_check_existence salt name auth c3 = (p, c4) →
  absent (World c l)
  = (Ret (if deleted || negb p
          then result_dict name (VBool true)
                 ("Resource group " +:+ name +:+ " has been deleted.")
                 {[ "old" := VDict g; "new" := VDict ∅ ]}
          else result_dict name (VBool false)
                 ("Failed to delete resource group " +:+ name +:+ "!") ∅),
     World (if deleted then c3 else c4)
       (l ++ [CheckExistence name auth; Get name auth; Delete name auth]
          ++ (if deleted then [] else [CheckExistence name auth]))).
Proof.
  intros Htest Hcheck Hget Hdelete Hcheck'. run.
  answer Hcheck. answer Htest. answer Hget. answer Hdelete.
  destruct deleted; cbv beta iota delta [negb orb].
  - by rewrite <- !app_assoc.
  - answer Hcheck'. rewrite <- !app_assoc. by destruct p.
Qed.

End Runs.

Lemma mutation_count_app (l1 l2 : list call) :
  mutation_count (l1 ++ l2) = mutation_count l1 + mutation_count l2.
Proof. unfold mutation_count. by rewrite List.filter_app, length_app. Qed.

(** C4. With the dry-run flag set, neither state function adds a mutating
    call to the calls already made, whatever its arguments, the client and
    the cloud are; a run that starts with no calls made ends with a
    mutation count of zero. *)
Theorem dry_run_never_mutates
    {S} (salt : Client S) deep_diff dict_repr
    (name : string) (location managed_by tags connection_auth : value)
    (kwargs : dict) (w : world S) :
  mutation_count
    (calls (resource_group_present salt deep_diff true dict_repr
              name location managed_by tags connection_auth kwargs w).2)
    = mutation_count (calls w)
  ∧ mutation_count (calls (resource_group_absent salt true name connection_auth w).2)
    = mutation_count (calls w)
  ∧ mutation_count
      (calls (resource_group_present salt deep_diff true dict_repr
                name location managed_by tags connection_auth kwargs (start (cloud w))).2)
    = 0
  ∧ mutation_count
      (calls (resource_group_absent salt true name connection_auth (start (cloud w))).2)
    = 0.
Proof.
  destruct w as [c l].
  destruct connection_auth as [| |?|auth]; try (repeat split; reflexivity).
  repeat split; run; case_answers; cbn [snd calls];
    rewrite ?mutation_count_app; cbn; lia.
Qed.

(** C6. When the existence check says the group is not there,
    [resource_group_absent] stops after that one read: [result] is [True],
    the comment is "Resource group NAME is already absent.", [changes] is
    empty, and no mutating call has been made. *)
Theorem absent_on_missing_group
    {S} (salt : Client S) opts_test (name : string) (auth : dict) (c c1 : S) :
  resource_group_check_existence salt name auth c = (false, c1) →
  resource_group_absent salt opts_test name (VDict auth) (start c)
    = (Ret (result_dict name (VBool true)
              ("Resource group " +:+ name +:+ " is already absent.") ∅),
       World c1 [CheckExistence name auth])
  ∧ mutation_count
      (calls (resource_group_absent salt opts_test name (VDict auth) (start c)).2) = 0.
Proof.
  intros Hcheck.
  pose proof (absent_missing_run salt opts_test name auth c c1 [] Hcheck) as Hrun.
  unfold start. rewrite Hrun. done.
Qed.

Lemma absent_on_missing_group_foo :
  resource_group_absent memory_client false "foo" (VDict ∅) (start ∅)
    = (Ret (result_dict "foo" (VBool true) "Resource group foo is already absent." ∅),
       World ∅ [CheckExistence "foo" ∅])
  ∧ mutation_count
      (calls (resource_group_absent memory_client false "foo" (VDict ∅) (start ∅)).2) = 0.
Proof.
  apply (absent_on_missing_group memory_client false "foo" ∅ ∅ ∅).
  reflexivity.
Defined.

Lemma invalid_connection_auth_rejected_none :
  is_dict VNone = false
  ∧ resource_group_present memory_client dictdiffer_deep_diff false opaque_repr
      "rg" (VStr "westus") VNone (VDict a1) VNone ∅ (start ∅)
    = (Ret (result_dict "rg" (VBool false)
              "Connection information must be specified via connection_auth dictionary!" ∅),
       start ∅)
  ∧ resource_group_absent memory_client false "rg" VNone (start ∅)
    = (Ret (result_dict "rg" (VBool false)
              "Connection information must be specified via connection_auth dictionary!" ∅),
       start ∅).
Proof.
  split; [reflexivity |].
  apply (invalid_connection_auth_rejected memory_client dictdiffer_deep_diff false
           opaque_repr "rg" (VStr "westus") VNone (VDict a1) VNone ∅ (start ∅)).
  reflexivity.
Defined.

(** C1. With a dictionary as [connection_auth], the dry-run flag off, and
    the group missing or its tags differing from the desired ones, a run of
    [resource_group_present] makes at most one mutating call and every
    mutating call is followed by an existence check. When no keyword is
    passed twice, the mutating call is the one request to create or update,
    the run ends with the existence check that follows it, and the result
    follows that check: [True] when the group is found, otherwise [False]
    with the [error] entry of the client's answer inside the comment. (A
    keyword passed twice makes the request raise [TypeError] before the
    client is reached.) *)
Theorem present_change_is_one_verified_mutation
    {S} (salt : Client S) deep_diff dict_repr
    (name : string) (location managed_by tags : value) (auth kwargs : dict)
    (c c' : S) :
  change_needed salt deep_diff name tags auth c c' →
  let run := resource_group_present salt deep_diff false dict_repr
               name location managed_by tags (VDict auth) kwargs (start c) in
  let request :=
    resource_group_create_or_update salt name location managed_by tags (auth ∪ kwargs) c' in
  let recheck := resource_group_check_existence salt name auth request.2 in
  mutation_count (calls run.2) ≤ 1
  ∧ mutations_verified (calls run.2) = true
  ∧ (keyword_repeated (auth ∪ kwargs) = true →
     run.1 = Raise TypeError ∧ mutation_count (calls run.2) = 0)
  ∧ (keyword_repeated (auth ∪ kwargs) = false →
     List.filter is_mutating (calls run.2)
       = [CreateOrUpdate name location managed_by tags (auth ∪ kwargs)]
     ∧ last (calls run.2) = Some (CheckExistence name auth)
     ∧ cloud run.2 = recheck.2
     ∧ ∃ r, run.1 = Ret r
         ∧ r !! "name" = Some (VStr name)
         ∧ r !! "result" = Some (VBool recheck.1)
         ∧ r !! "comment" = Some (VStr
             (if recheck.1
              then "Resource group " +:+ name +:+ " has been created."
              else "Failed to create resource group " +:+ name +:+ "! ("
                   +:+ str_of dict_repr (dict_get request.1 "error" VNone) +:+ ")"))).
Proof.
  intros Hneed run request recheck.
  destruct request as [grp c3] eqn:Hrequest.
  destruct recheck as [p c4] eqn:Hrecheck.
  cbn [fst snd] in *.
  destruct (keyword_repeated (auth ∪ kwargs)) eqn:Hkw.
  - assert (∃ reads, run = (Raise TypeError, World c' reads) ∧ mutation_count reads = 0
                     ∧ mutations_verified reads = true) as (reads & Hrun & Hcount & Hver).
    { destruct Hneed as [Hcheck | (c1 & g & ch & Hcheck & Hget & Hdiff & Hch)].
      - exists [CheckExistence name auth]. split; [| done].
        subst run. run. answer Hcheck. by rewrite Hkw.
      - exists [CheckExistence name auth; Get name auth]. split; [| done].
        subst run. run. answer Hcheck. answer Hget. answer Hdiff.
        rewrite (truthy_nonempty_dict ch Hch). cbv beta iota delta [negb].
        by rewrite Hkw. }
    rewrite Hrun. cbn [fst snd calls]. rewrite Hcount, Hver.
    split; [lia |]. split; [done |]. split; [done | discriminate].
  - assert (∃ reads ch, run =
        (Ret (if p
              then result_dict name (VBool true)
                     ("Resource group " +:+ name +:+ " has been created.")
                     {[ "old" := VDict ∅; "new" := VDict grp ]}
              else result_dict name (VBool false)
                     ("Failed to create resource group " +:+ name +:+ "! ("
                      +:+ str_of dict_repr (dict_get grp "error" VNone) +:+ ")")
                     ch),
         World c4 (reads ++ [CreateOrUpdate name location managed_by tags (auth ∪ kwargs);
                             CheckExistence name auth]))
        ∧ (reads = [CheckExistence name auth]
           ∨ reads = [CheckExistence name auth; Get name auth]))
      as (reads & ch & Hrun & Hreads).
    { destruct Hneed as [Hcheck | (c1 & g & ch & Hcheck & Hget & Hdiff & Hch)].
      - exists [CheckExistence name auth], ∅. split; [| by left].
        subst run. unfold start.
        by rewrite (present_missing_apply_run salt deep_diff false dict_repr name
                      location managed_by tags auth kwargs grp p c c' c3 c4 []).
      - exists [CheckExistence name auth; Get name auth], ch. split; [| by right].
        subst run. unfold start.
        by rewrite (present_drift_apply_run salt deep_diff false dict_repr name
                      location managed_by tags auth kwargs g ch grp p c c1 c' c3 c4 []). }
    rewrite Hrun. cbn [fst snd calls cloud].
    split; [destruct Hreads as [-> | ->]; cbn; lia |].
    split; [by destruct Hreads as [-> | ->] |].
    split; [discriminate |]. intros _.
    split; [by destruct Hreads as [-> | ->] |].
    split; [by destruct Hreads as [-> | ->] |].
    split; [done |].
    eexists. split; [reflexivity |]. by destruct p.
Qed.

Lemma present_change_rejected_creation :
  let s := Script [false; false] ∅ {[ "error" := VStr "quota exceeded" ]} false in
  let run := resource_group_present scripted_client dictdiffer_deep_diff false opaque_repr
               "rg" (VStr "westus") VNone (VDict a1) (VDict ∅) ∅ (start s) in
  change_needed scripted_client dictdiffer_deep_diff "rg" (VDict a1) ∅ s
    (Script [false] ∅ {[ "error" := VStr "quota exceeded" ]} false)
  ∧ mutation_count (calls run.2) ≤ 1
  ∧ mutations_verified (calls run.2) = true
  ∧ ∃ r, run.1 = Ret r
      ∧ r !! "result" = Some (VBool false)
      ∧ r !! "comment"
        = Some (VStr "Failed to create resource group rg! (quota exceeded)").
Proof.
  intros s run.
  assert (change_needed scripted_client dictdiffer_deep_diff "rg" (VDict a1) ∅ s
            (Script [false] ∅ {[ "error" := VStr "quota exceeded" ]} false)) as Hneed
    by (left; reflexivity).
  split; [exact Hneed |].
  destruct (present_change_is_one_verified_mutation scripted_client dictdiffer_deep_diff
              opaque_repr "rg" (VStr "westus") VNone (VDict a1) ∅ ∅ s _ Hneed)
    as (Hcount & Hverified & _ & Hrun).
  split; [exact Hcount |]. split; [exact Hverified |].
  destruct (Hrun eq_refl) as (_ & _ & _ & r & Hr & _ & Hresult & Hcomment).
  exists r. split; [exact Hr |]. split; [exact Hresult | exact Hcomment].
Defined.

(** C2, as the code has it. With a dictionary as [connection_auth], the
    group found and the dry-run flag off, [resource_group_absent] fetches
    the record and requests the deletion. When the deletion answers [True]
    the run ends there with [result] [True] and changes from the record to
    nothing, and no existence check follows. When it answers [False] the
    existence check is repeated: the result is [True], with the same
    changes, if the group is gone, and [False] with no changes if it is
    still there. *)
Theorem absent_deletes_and_trusts_the_answer
    {S} (salt : Client S) (name : string) (auth : dict)
    (g : dict) (deleted p : bool) (c c1 c2 c3 c4 : S) :
  resource_group_check_existence salt name auth c = (true, c1) →
  resource_group_get salt name auth c1 = (g, c2) →
  resource_group_delete salt name auth c2 = (deleted, c3) →
  resource_group_check_existence salt name auth c3 = (p, c4) →
  resource_group_absent salt false name (VDict auth) (start c)
  = (Ret (if deleted || negb p
          then result_dict name (VBool true)
                 ("Resource group " +:+ name +:+ " has been deleted.")
                 {[ "old" := VDict g; "new" := VDict ∅ ]}
          else result_dict name (VBool false)
                 ("Failed to delete resource group " +:+ name +:+ "!") ∅),
     World (if deleted then c3 else c4)
       ([CheckExistence name auth; Get name auth; Delete name auth]
          ++ (if deleted then [] else [CheckExistence name auth]))).
Proof.
  intros Hcheck Hget Hdelete Hrecheck.
  exact (absent_delete_run salt false name auth g deleted p c c1 c2 c3 c4 []
           eq_refl Hcheck Hget Hdelete Hrecheck).
Qed.

Lemma absent_deletes_from_memory :
  let g := group_record "rg" (VStr "westus") VNone (VDict a1) in
  resource_group_absent memory_client false "rg" (VDict ∅) (start {[ "rg" := g ]})
  = (Ret (result_dict "rg" (VBool true) "Resource group rg has been deleted."
            {[ "old" := VDict g; "new" := VDict ∅ ]}),
     World ∅ [CheckExistence "rg" ∅; Get "rg" ∅; Delete "rg" ∅]).
Proof.
  intros g.
  apply (absent_deletes_and_trusts_the_answer memory_client "rg" ∅ g true false
           {[ "rg" := g ]} {[ "rg" := g ]} {[ "rg" := g ]} ∅ ∅); reflexivity.
Defined.

(** C2 as stated fails: the client accepts the deletion and answers [True],
    the group is still there (an existence check on the cloud the run
    leaves behind says so), and the run reports [True], not [False],
    without having made an existence check after the deletion. *)
Lemma absent_reports_unverified_deletion :
  let g : dict := {[ "name" := VStr "rg" ]} in
  let s := Script [true; true] g ∅ true in
  let run := resource_group_absent scripted_client false "rg" (VDict ∅) (start s) in
  (resource_group_delete scripted_client "rg" ∅ s).1 = true
  ∧ run.1 = Ret (result_dict "rg" (VBool true) "Resource group rg has been deleted."
                   {[ "old" := VDict g; "new" := VDict ∅ ]})
  ∧ calls run.2 = [CheckExistence "rg" ∅; Get "rg" ∅; Delete "rg" ∅]
  ∧ (resource_group_check_existence scripted_client "rg" ∅ (cloud run.2)).1 = true
  ∧ ¬ (∃ r, run.1 = Ret r ∧ r !! "result" = Some (VBool false)).
Proof.
  intros g s run.
  split; [reflexivity |]. split; [reflexivity |].
  split; [reflexivity |]. split; [reflexivity |].
  intros (r & Hr & Hresult).
  assert (r = result_dict "rg" (VBool true) "Resource group rg has been deleted."
                {[ "old" := VDict g; "new" := VDict ∅ ]}) as ->
    by (cbv [run] in Hr; injection Hr as <-; reflexivity).
  discriminate Hresult.
Qed.

Section RepeatedKeyword.

Context {S : Type} (salt : Client S).
Variable deep_diff : value → value → outcome dict.
Variable dict_repr : dict → string.
Variables (name : string) (location managed_by tags : value).
Variables (auth kwargs : dict).

Local Abbreviation present := (resource_group_present salt deep_diff false dict_repr
  name location managed_by tags (VDict auth) kwargs).

Lemma present_missing_repeated_keyword_run (c c1 : S) (l : list call) :
  keyword_repeated (auth ∪ kwargs) = true →
  resource_group_check_existence salt name auth c = (false, c1) →
  present (World c l) = (Raise TypeError, World c1 (l ++ [CheckExistence name auth])).
Proof.
  intros Hkw Hcheck. run. answer Hcheck. by rewrite Hkw.
Qed.

Lemma present_drift_repeated_keyword_run (g ch : dict) (c c1 c2 : S) (l : list call) :
  keyword_repeated (auth ∪ kwargs) = true →
  resource_group_check_existence salt name auth c = (true, c1) →
  resource_group_get salt name auth c1 = (g, c2) →
  deep_diff (dict_get g "tags" (VDict ∅)) (py_or tags (VDict ∅)) = Ret ch →
  ch ≠ ∅ →
  present (World c l)
  = (Raise TypeError, World c2 (l ++ [CheckExistence name auth; Get name auth])).
Proof.
  intros Hkw Hcheck Hget Hdiff Hch. run.
  answer Hcheck. answer Hget. answer Hdiff.
  rewrite (truthy_nonempty_dict ch Hch). cbv beta iota delta [negb].
  by rewrite Hkw, <- app_assoc.
Qed.

End RepeatedKeyword.


(** *** The models behave as described *)

Lemma differing_empty (d other : dict) : differing d other = ∅ ↔ d ⊆ other.
Proof.
  unfold differing. rewrite map_empty_filter, map_subseteq_spec.
  unfold map_Forall. cbn. split; intros Hd i x Hi.
  - specialize (Hd i x Hi). by apply dec_stable in Hd.
  - specialize (Hd i x Hi). by intros Hne.
Qed.

Lemma dictdiffer_deep_diff_mappings (o n : dict) :
  dictdiffer_deep_diff (VDict o) (VDict n)
  = Ret ((if decide (differing o n = ∅) then ∅ else {[ "old" := VDict (differing o n) ]})
         ∪ (if decide (differing n o = ∅) then ∅ else {[ "new" := VDict (differing n o) ]})).
Proof. reflexivity. Qed.

(** The diff of two mappings is empty exactly when they are equal. *)
Lemma dictdiffer_deep_diff_empty_iff (o n : dict) :
  dictdiffer_deep_diff (VDict o) (VDict n) = Ret ∅ ↔ o = n.
Proof.
  rewrite dictdiffer_deep_diff_mappings. split.
  - intros [= Hempty].
    pose proof (map_positive_l _ _ Hempty) as Hold.
    rewrite Hold, (left_id_L ∅ (∪)) in Hempty.
    destruct (decide (differing o n = ∅)) as [Ho | _];
      [| by apply map_non_empty_singleton in Hold].
    destruct (decide (differing n o = ∅)) as [Hn | _];
      [| by apply map_non_empty_singleton in Hempty].
    apply differing_empty in Ho, Hn.
    by apply (anti_symm (⊆)).
  - intros ->.
    assert (differing n n = ∅) as -> by by apply differing_empty.
    rewrite decide_True by done. by rewrite (left_id_L ∅ (∪)).
Qed.

Lemma a1b2_truthy : py_or (VDict a1b2) (VDict ∅) = VDict a1b2.
Proof. reflexivity. Qed.

Lemma diff_a1_a1b2 :
  dictdiffer_deep_diff (VDict a1) (VDict a1b2)
  = Ret {[ "new" := VDict {[ "b" := VStr "2" ]} ]}.
Proof. vm_compute. reflexivity. Qed.

Lemma memory_client_reads_keep_cloud : reads_keep_cloud memory_client.
Proof. intros n kw c. split; reflexivity. Qed.

Lemma group_record_tags (name : string) (location managed_by tags : value) :
  dict_get (group_record name location managed_by tags) "tags" (VDict ∅)
  = if decide (tags = VNone) then VDict ∅ else tags.
Proof.
  unfold group_record, dict_get.
  destruct (decide (managed_by = VNone)), (decide (tags = VNone)); reflexivity.
Qed.

(** The in-memory client applies every request whose tags are [None] or a
    mapping. *)
Lemma memory_client_applies_mutation
    (name : string) (location managed_by tags : value) (auth kw : dict) :
  tags = VNone ∨ is_dict tags = true →
  applies_mutation memory_client dictdiffer_deep_diff name location managed_by tags auth kw.
Proof.
  intros Htags c. cbn.
  rewrite lookup_insert_eq. split.
  - apply bool_decide_eq_true_2. by eexists.
  - cbn. rewrite group_record_tags.
    destruct Htags as [-> | Hdict].
    + reflexivity.
    + destruct tags as [| | |d]; try discriminate Hdict.
      rewrite decide_False by done.
      unfold py_or. destruct (truthy (VDict d)) eqn:Htruthy.
      * by apply dictdiffer_deep_diff_empty_iff.
      * apply truthy_dict_false in Htruthy as ->.
        by apply dictdiffer_deep_diff_empty_iff.
Qed.





(** C8. The code at the input where it leaves the claim: the group exists
    with tags [{a: "1"}], the desired tags are [{a: "1", b: "2"}], the
    update is requested and the existence check after it does not find the
    group. The run returns [False] with the diff of the tags, stored before
    the request, still sitting in [changes]: not empty, and without an
    [old] entry. On the sibling path, a creation that is not confirmed, the
    same failure is returned with empty changes. *)
Lemma unconfirmed_update_leaves_the_diff :
  let g : dict := {[ "name" := VStr "rg"; "tags" := VDict a1 ]} in
  let answer : dict := {[ "error" := VStr "conflict" ]} in
  let run := resource_group_present scripted_client dictdiffer_deep_diff false opaque_repr
               "rg" (VStr "westus") VNone (VDict a1b2) (VDict ∅) ∅
               (start (Script [true; false] g answer false)) in
  let sibling := resource_group_present scripted_client dictdiffer_deep_diff false opaque_repr
                   "rg" (VStr "westus") VNone (VDict a1b2) (VDict ∅) ∅
                   (start (Script [false; false] g answer false)) in
  let ch : dict := {[ "new" := VDict {[ "b" := VStr "2" ]} ]} in
  run.1 = Ret (result_dict "rg" (VBool false)
                 "Failed to create resource group rg! (conflict)" ch)
  ∧ ¬ (ch = ∅ ∨ dom ch = old_new)
  ∧ sibling.1 = Ret (result_dict "rg" (VBool false)
                       "Failed to create resource group rg! (conflict)" ∅).
Proof.
  intros g answer run sibling ch.
  pose (s1 := Script [false] g answer false).
  assert (keyword_repeated ((∅ : dict) ∪ ∅) = false) as Hkw by reflexivity.
  assert (resource_group_get scripted_client "rg" ∅ s1 = (g, s1)) as Hget by reflexivity.
  assert (resource_group_create_or_update scripted_client "rg" (VStr "westus") VNone
            (VDict a1b2) (∅ ∪ ∅) s1 = (answer, s1)) as Hcreate by reflexivity.
  assert (resource_group_check_existence scripted_client "rg" ∅ s1
          = (false, Script [] g answer false)) as Hrecheck by reflexivity.
  split; [| split].
  - assert (resource_group_check_existence scripted_client "rg" ∅
              (Script [true; false] g answer false) = (true, s1)) as Hcheck by reflexivity.
    assert (dictdiffer_deep_diff (dict_get g "tags" (VDict ∅))
              (py_or (VDict a1b2) (VDict ∅)) = Ret ch) as Hdiff by exact diff_a1_a1b2.
    subst run. unfold start.
    by rewrite (present_drift_apply_run scripted_client dictdiffer_deep_diff false
                  opaque_repr "rg" (VStr "westus") VNone (VDict a1b2) ∅ ∅ g ch
                  _ false _ s1 s1 s1 _ [] eq_refl Hkw Hcheck Hget Hdiff
                  (map_non_empty_singleton "new" (VDict {[ "b" := VStr "2" ]}))
                  Hcreate Hrecheck).
  - intros [Hempty | Hdom].
    + by apply map_non_empty_singleton in Hempty.
    + assert ("old" ∈ dom ch) as Hold by (rewrite Hdom; unfold old_new; set_solver).
      subst ch. rewrite dom_singleton_L in Hold. set_solver.
  - assert (resource_group_check_existence scripted_client "rg" ∅
              (Script [false; false] g answer false) = (false, s1)) as Hcheck by reflexivity.
    subst sibling. unfold start.
    by rewrite (present_missing_apply_run scripted_client dictdiffer_deep_diff false
                  opaque_repr "rg" (VStr "westus") VNone (VDict a1b2) ∅ ∅
                  _ false _ s1 s1 _ [] eq_refl Hkw Hcheck Hcreate Hrecheck).
Qed.

(** C9, as the code has it. Live tags [{a: "1"}], desired tags
    [{a: "1", b: "2"}], dry-run flag off. The diff reports the entry
    [b: "2"] as new and nothing as old. The diff not being empty, and
    provided neither [connection_auth] nor the extra keyword arguments hold
    the key [managed_by] or [tags], [resource_group_present] hands the
    client exactly one request to create or update, with the desired
    mapping [{a: "1", b: "2"}] as its [tags] argument, and ends as the
    client answers it. With such a key the request is rejected with
    [TypeError] before the client is reached, after the two reads. *)
Theorem present_adds_the_missing_tag
    {S} (salt : Client S) deep_diff dict_repr
    (name : string) (location managed_by : value) (auth kwargs : dict)
    (g ch : dict) (c c1 c2 : S) :
  resource_group_check_existence salt name auth c = (true, c1) →
  resource_group_get salt name auth c1 = (g, c2) →
  g !! "tags" = Some (VDict a1) →
  deep_diff (VDict a1) (VDict a1b2) = Ret ch →
  ch ≠ ∅ →
  let run := resource_group_present salt deep_diff false dict_repr
               name location managed_by (VDict a1b2) (VDict auth) kwargs (start c) in
  let request :=
    resource_group_create_or_update salt name location managed_by (VDict a1b2)
      (auth ∪ kwargs) c2 in
  let recheck := resource_group_check_existence salt name auth request.2 in
  dictdiffer_deep_diff (dict_get g "tags" (VDict ∅)) (VDict a1b2)
    = Ret {[ "new" := VDict {[ "b" := VStr "2" ]} ]}
  ∧ (keyword_repeated (auth ∪ kwargs) = false →
     run = (Ret (if recheck.1
                 then result_dict name (VBool true)
                        ("Resource group " +:+ name +:+ " has been created.")
                        {[ "old" := VDict ∅; "new" := VDict request.1 ]}
                 else result_dict name (VBool false)
                        ("Failed to create resource group " +:+ name +:+ "! ("
                         +:+ str_of dict_repr (dict_get request.1 "error" VNone) +:+ ")")
                        ch),
            World recheck.2
              [CheckExistence name auth; Get name auth;
               CreateOrUpdate name location managed_by (VDict a1b2) (auth ∪ kwargs);
               CheckExistence name auth])
     ∧ List.filter is_mutating (calls run.2)
       = [CreateOrUpdate name location managed_by (VDict a1b2) (auth ∪ kwargs)]
     ∧ mutation_count (calls run.2) = 1)
  ∧ (keyword_repeated (auth ∪ kwargs) = true →
     run = (Raise TypeError, World c2 [CheckExistence name auth; Get name auth])).
Proof.
  intros Hcheck Hget Htags Hdiff Hch run request recheck.
  assert (dict_get g "tags" (VDict ∅) = VDict a1) as Hlive
    by (unfold dict_get; by rewrite Htags).
  assert (deep_diff (dict_get g "tags" (VDict ∅)) (py_or (VDict a1b2) (VDict ∅)) = Ret ch)
    as Hdiff' by (by rewrite Hlive, a1b2_truthy).
  rewrite Hlive. split; [exact diff_a1_a1b2 |].
  destruct request as [grp c3] eqn:Hcreate.
  destruct recheck as [p c4] eqn:Hrecheck.
  cbn [fst snd] in *. subst run. unfold start.
  split; intros Hkw.
  - rewrite (present_drift_apply_run salt deep_diff false dict_repr name
               location managed_by (VDict a1b2) auth kwargs g ch grp p c c1 c2 c3 c4 []
               eq_refl Hkw Hcheck Hget Hdiff' Hch Hcreate Hrecheck).
    done.
  - exact (present_drift_repeated_keyword_run salt deep_diff dict_repr name
             location managed_by (VDict a1b2) auth kwargs g ch c c1 c2 []
             Hkw Hcheck Hget Hdiff' Hch).
Qed.

Lemma present_adds_the_missing_tag_on_memory :
  let g := group_record "rg" (VStr "westus") VNone (VDict a1) in
  let g' := group_record "rg" (VStr "westus") VNone (VDict a1b2) in
  let cl : gmap string dict := {[ "rg" := g ]} in
  let run := resource_group_present memory_client dictdiffer_deep_diff false opaque_repr
               "rg" (VStr "westus") VNone (VDict a1b2) (VDict ∅) ∅ (start cl) in
  run = (Ret (result_dict "rg" (VBool true) "Resource group rg has been created."
                {[ "old" := VDict ∅; "new" := VDict g' ]}),
         World (<[ "rg" := g' ]> cl)
           [CheckExistence "rg" ∅; Get "rg" ∅;
            CreateOrUpdate "rg" (VStr "westus") VNone (VDict a1b2) (∅ ∪ ∅);
            CheckExistence "rg" ∅])
  ∧ List.filter is_mutating (calls run.2)
    = [CreateOrUpdate "rg" (VStr "westus") VNone (VDict a1b2) (∅ ∪ ∅)]
  ∧ mutation_count (calls run.2) = 1.
Proof.
  intros g g' cl run.
  assert (resource_group_check_existence memory_client "rg" ∅ cl = (true, cl))
    as Hcheck by reflexivity.
  assert (resource_group_get memory_client "rg" ∅ cl = (g, cl)) as Hget by reflexivity.
  assert (g !! "tags" = Some (VDict a1)) as Htags by reflexivity.
  assert (keyword_repeated ((∅ : dict) ∪ ∅) = false) as Hkw by reflexivity.
  exact (proj1 (proj2 (present_adds_the_missing_tag memory_client dictdiffer_deep_diff
                         opaque_repr "rg" (VStr "westus") VNone ∅ ∅ g _ cl cl cl
                         Hcheck Hget Htags diff_a1_a1b2
                         (map_non_empty_singleton "new" (VDict {[ "b" := VStr "2" ]}))))
           Hkw).
Defined.

(** C9 as stated fails: the same tags, live and desired, with a
    [connection_auth] dictionary that holds the key [managed_by]. The run
    makes its two reads and raises [TypeError]; no request to create or
    update is made. *)
Lemma present_adds_no_tag_under_repeated_keyword :
  let g := group_record "rg" (VStr "westus") VNone (VDict a1) in
  let auth : dict := {[ "managed_by" := VStr "m" ]} in
  let cl : gmap string dict := {[ "rg" := g ]} in
  let run := resource_group_present memory_client dictdiffer_deep_diff false opaque_repr
               "rg" (VStr "westus") VNone (VDict a1b2) (VDict auth) ∅ (start cl) in
  g !! "tags" = Some (VDict a1)
  ∧ run = (Raise TypeError, World cl [CheckExistence "rg" auth; Get "rg" auth])
  ∧ List.filter is_create_or_update (calls run.2) = [].
Proof.
  intros g auth cl run.
  assert (resource_group_check_existence memory_client "rg" auth cl = (true, cl))
    as Hcheck by reflexivity.
  assert (resource_group_get memory_client "rg" auth cl = (g, cl)) as Hget by reflexivity.
  assert (keyword_repeated (auth ∪ ∅) = true) as Hkw by reflexivity.
  assert (dictdiffer_deep_diff (dict_get g "tags" (VDict ∅)) (py_or (VDict a1b2) (VDict ∅))
          = Ret {[ "new" := VDict {[ "b" := VStr "2" ]} ]}) as Hdiff
    by exact diff_a1_a1b2.
  assert (run = (Raise TypeError, World cl [CheckExistence "rg" auth; Get "rg" auth]))
    as Hrun.
  { subst run. unfold start.
    exact (present_drift_repeated_keyword_run memory_client dictdiffer_deep_diff
             opaque_repr "rg" (VStr "westus") VNone (VDict a1b2) auth ∅ g _ cl cl cl []
             Hkw Hcheck Hget Hdiff
             (map_non_empty_singleton "new" (VDict {[ "b" := VStr "2" ]}))). }
  split; [reflexivity |]. split; [exact Hrun |]. by rewrite Hrun.
Qed.

(** C10. [tags] left out ([None]) on an existing group. The only diff that
    is computed is the one of the live tags against the empty mapping: two
    diff utilities that agree on that one pair of arguments give the same
    run, and an empty answer on it ends the run as "already present". The
    [None] itself is what goes out: in a dry run it is the [new] entry of
    the changes, and otherwise it is the [tags] argument of the request to
    create or update that is handed to the client, whose answer decides how
    the run ends. (With a keyword passed twice nothing is handed over: the
    request raises [TypeError].) *)
Theorem present_with_tags_omitted
    {S} (salt : Client S) (deep_diff deep_diff' : value → value → outcome dict)
    opts_test dict_repr
    (name : string) (location managed_by : value) (auth kwargs : dict)
    (g : dict) (c c1 c2 : S) :
  resource_group_check_existence salt name auth c = (true, c1) →
  resource_group_get salt name auth c1 = (g, c2) →
  let live := dict_get g "tags" (VDict ∅) in
  let run dd test :=
    resource_group_present salt dd test dict_repr
      name location managed_by VNone (VDict auth) kwargs (start c) in
  let request :=
    resource_group_create_or_update salt name location managed_by VNone (auth ∪ kwargs) c2 in
  let recheck := resource_group_check_existence salt name auth request.2 in
  (deep_diff live (VDict ∅) = deep_diff' live (VDict ∅) →
   run deep_diff opts_test = run deep_diff' opts_test)
  ∧ (deep_diff live (VDict ∅) = Ret ∅ →
     run deep_diff opts_test
     = (Ret (result_dict name (VBool true)
               ("Resource group " +:+ name +:+ " is already present.") ∅),
        World c2 [CheckExistence name auth; Get name auth]))
  ∧ (∀ ch, deep_diff live (VDict ∅) = Ret ch → ch ≠ ∅ →
     run deep_diff true
     = (Ret (result_dict name VNone
               ("Resource group " +:+ name +:+ " tags would be updated.")
               {[ "old" := live; "new" := VNone ]}),
        World c2 [CheckExistence name auth; Get name auth])
     ∧ (keyword_repeated (auth ∪ kwargs) = false →
        run deep_diff false
        = (Ret (if recheck.1
                then result_dict name (VBool true)
                       ("Resource group " +:+ name +:+ " has been created.")
                       {[ "old" := VDict ∅; "new" := VDict request.1 ]}
                else result_dict name (VBool false)
                       ("Failed to create resource group " +:+ name +:+ "! ("
                        +:+ str_of dict_repr (dict_get request.1 "error" VNone) +:+ ")")
                       ch),
           World recheck.2
             [CheckExistence name auth; Get name auth;
              CreateOrUpdate name location managed_by VNone (auth ∪ kwargs);
              CheckExistence name auth])
        ∧ List.filter is_mutating (calls (run deep_diff false).2)
          = [CreateOrUpdate name location managed_by VNone (auth ∪ kwargs)])
     ∧ (keyword_repeated (auth ∪ kwargs) = true →
        run deep_diff false
        = (Raise TypeError, World c2 [CheckExistence name auth; Get name auth]))).
Proof.
  intros Hcheck Hget live run request recheck.
  split; [| split].
  - intros Hagree. subst run live. run.
    answer Hcheck. answer Hget.
    change (py_or VNone (VDict ∅)) with (VDict ∅).
    by rewrite Hagree.
  - intros Hdiff. subst run live.
    exact (present_no_drift_run salt deep_diff opts_test dict_repr name location
             managed_by VNone auth kwargs g c c1 c2 [] Hcheck Hget Hdiff).
  - intros ch Hdiff Hch. split; [| split].
    + subst run live.
      exact (present_drift_dry_run salt deep_diff true dict_repr name location
               managed_by VNone auth kwargs g ch c c1 c2 [] eq_refl Hcheck Hget Hdiff Hch).
    + intros Hkw. subst run live. cbv beta.
      destruct request as [grp c3] eqn:Hcreate.
      destruct recheck as [p c4] eqn:Hrecheck.
      cbn [fst snd]. unfold start.
      rewrite (present_drift_apply_run salt deep_diff false dict_repr name location
                 managed_by VNone auth kwargs g ch grp p c c1 c2 c3 c4 []
                 eq_refl Hkw Hcheck Hget Hdiff Hch Hcreate Hrecheck).
      done.
    + intros Hkw. subst run live.
      exact (present_drift_repeated_keyword_run salt deep_diff dict_repr name
               location managed_by VNone auth kwargs g ch c c1 c2 []
               Hkw Hcheck Hget Hdiff Hch).
Qed.

Lemma diff_a1_nothing :
  dictdiffer_deep_diff (VDict a1) (VDict ∅) = Ret {[ "old" := VDict a1 ]}.
Proof. vm_compute. reflexivity. Qed.

Lemma present_with_tags_omitted_on_memory :
  let g := group_record "rg" (VStr "westus") VNone (VDict a1) in
  let g' := group_record "rg" (VStr "westus") VNone VNone in
  let cl : gmap string dict := {[ "rg" := g ]} in
  let run test :=
    resource_group_present memory_client dictdiffer_deep_diff test opaque_repr
      "rg" (VStr "westus") VNone VNone (VDict ∅) ∅ (start cl) in
  run true
  = (Ret (result_dict "rg" VNone "Resource group rg tags would be updated."
            {[ "old" := VDict a1; "new" := VNone ]}),
     World cl [CheckExistence "rg" ∅; Get "rg" ∅])
  ∧ run false
    = (Ret (result_dict "rg" (VBool true) "Resource group rg has been created."
              {[ "old" := VDict ∅; "new" := VDict g' ]}),
       World (<[ "rg" := g' ]> cl)
         [CheckExistence "rg" ∅; Get "rg" ∅;
          CreateOrUpdate "rg" (VStr "westus") VNone VNone (∅ ∪ ∅);
          CheckExistence "rg" ∅]).
Proof.
  intros g g' cl run.
  assert (resource_group_check_existence memory_client "rg" ∅ cl = (true, cl))
    as Hcheck by reflexivity.
  assert (resource_group_get memory_client "rg" ∅ cl = (g, cl)) as Hget by reflexivity.
  assert (keyword_repeated ((∅ : dict) ∪ ∅) = false) as Hkw by reflexivity.
  destruct (present_with_tags_omitted memory_client dictdiffer_deep_diff
              dictdiffer_deep_diff false opaque_repr "rg" (VStr "westus") VNone ∅ ∅
              g _ _ _ Hcheck Hget) as (_ & _ & Hdrift).
  destruct (Hdrift {[ "old" := VDict a1 ]} diff_a1_nothing
              (map_non_empty_singleton "old" (VDict a1))) as (Hdry & Hforward & _).
  split; [exact Hdry | exact (proj1 (Hforward Hkw))].
Defined.

(** * Further properties of the module *)

(** X2. The calls of one run of [resource_group_present], whatever the
    arguments, the client and the diff utility: none when [connection_auth]
    is not a dictionary, and otherwise an existence check, then possibly
    the fetch of the record, then possibly one request to create or update
    that is followed by a second existence check. Every call names the
    group that was passed in, the reads are given [connection_auth], and
    nothing is ever deleted. *)
Theorem present_call_protocol
    {S} (salt : Client S) deep_diff opts_test dict_repr
    (name : string) (location managed_by tags connection_auth : value)
    (kwargs : dict) (c : S) :
  let log := calls (resource_group_present salt deep_diff opts_test dict_repr
                      name location managed_by tags connection_auth kwargs (start c)).2 in
  match connection_auth with
  | VDict auth =>
      let check := CheckExistence name auth in
      let fetch := Get name auth in
      let request := CreateOrUpdate name location managed_by tags (auth ∪ kwargs) in
      log = [check] ∨ log = [check; fetch]
      ∨ log = [check; request; check] ∨ log = [check; fetch; request; check]
  | _ => log = []
  end.
Proof.
  destruct connection_auth as [| |?|auth]; try reflexivity.
  destruct opts_test; run; case_answers; cbn [snd calls app]; tauto.
Qed.

(** X3. The calls of one run of [resource_group_absent], whatever the
    arguments and the client: none when [connection_auth] is not a
    dictionary, and otherwise an existence check, then possibly the fetch
    of the record, then possibly the deletion, then possibly one more
    existence check. Every call names the group that was passed in and is
    given [connection_auth]; the record is fetched before anything is
    deleted, and nothing is ever created or updated. *)
Theorem absent_call_protocol
    {S} (salt : Client S) opts_test (name : string) (connection_auth : value) (c : S) :
  let log := calls (resource_group_absent salt opts_test name connection_auth (start c)).2 in
  match connection_auth with
  | VDict auth =>
      let check := CheckExistence name auth in
      let fetch := Get name auth in
      let deletion := Delete name auth in
      log = [check] ∨ log = [check; fetch]
      ∨ log = [check; fetch; deletion] ∨ log = [check; fetch; deletion; check]
  | _ => log = []
  end.
Proof.
  destruct connection_auth as [| |?|auth]; try reflexivity.
  destruct opts_test; run; case_answers; cbn [snd calls app]; tauto.
Qed.

(** C1 as stated fails: with the dry-run flag off, the group missing and
    a [connection_auth] dictionary that holds the key [tags], the request
    to create or update is rejected with [TypeError] for the keyword
    passed twice. The run returns no result, neither [True] nor [False],
    and the existence check that was made is its only call. *)
Lemma present_with_repeated_keyword_returns_nothing :
  let auth : dict := {[ "tags" := VStr "x" ]} in
  let run := resource_group_present memory_client dictdiffer_deep_diff false opaque_repr
               "rg" (VStr "westus") VNone (VDict a1) (VDict auth) ∅ (start ∅) in
  change_needed memory_client dictdiffer_deep_diff "rg" (VDict a1) auth ∅ ∅
  ∧ run = (Raise TypeError, World ∅ [CheckExistence "rg" auth])
  ∧ ¬ (∃ r, run.1 = Ret r).
Proof.
  intros auth run.
  assert (keyword_repeated (auth ∪ ∅) = true) as Hkw by reflexivity.
  assert (resource_group_check_existence memory_client "rg" auth ∅ = (false, ∅))
    as Hcheck by reflexivity.
  pose proof (present_missing_repeated_keyword_run memory_client dictdiffer_deep_diff
                opaque_repr "rg" (VStr "westus") VNone (VDict a1) auth ∅ ∅ ∅ []
                Hkw Hcheck) as Hrun.
  split; [by left |]. split; [exact Hrun |].
  intros [r Hr]. subst run. unfold start in Hr. rewrite Hrun in Hr. discriminate Hr.
Qed.

Lemma lookup_credentials_first (auth kwargs : dict) (k : string) :
  (auth ∪ kwargs) !! k = match auth !! k with Some v => Some v | None => kwargs !! k end.
Proof.
  rewrite lookup_union. destruct (auth !! k), (kwargs !! k); reflexivity.
Qed.

(** X5. Which keywords reach the client. The request to create or update is
    given [kwargs] overlaid with [connection_auth]: under a key that both
    hold, the value of [connection_auth] is the one passed on. The existence
    checks and the fetch are given [connection_auth] alone, so the extra
    keyword arguments never reach a read. *)
Theorem credentials_override_extra_keywords
    {S} (salt : Client S) deep_diff opts_test dict_repr
    (name : string) (location managed_by tags : value) (auth kwargs : dict)
    (c : S) (made : call) :
  made ∈ calls (resource_group_present salt deep_diff opts_test dict_repr
                  name location managed_by tags (VDict auth) kwargs (start c)).2 →
  match made with
  | CreateOrUpdate _ _ _ _ kw =>
      ∀ k, kw !! k = match auth !! k with Some v => Some v | None => kwargs !! k end
  | CheckExistence _ kw | Get _ kw => kw = auth
  | Delete _ _ => False
  end.
Proof.
  destruct opts_test; run; case_answers; cbn [snd calls app];
    rewrite ?elem_of_cons, elem_of_nil;
    intros Hmade; repeat destruct Hmade as [-> | Hmade]; try done;
    intros k; apply lookup_credentials_first.
Qed.

Lemma credentials_override_region_keyword :
  let auth : dict := {[ "subscription_id" := VStr "s1" ]} in
  let kwargs : dict := {[ "subscription_id" := VStr "s2"; "region" := VStr "eu" ]} in
  (auth ∪ kwargs) !! "subscription_id" = Some (VStr "s1")
  ∧ (auth ∪ kwargs) !! "region" = Some (VStr "eu").
Proof.
  intros auth kwargs.
  assert (CreateOrUpdate "rg" (VStr "westus") VNone (VDict a1) (auth ∪ kwargs)
            ∈ calls (resource_group_present memory_client dictdiffer_deep_diff false
                       opaque_repr "rg" (VStr "westus") VNone (VDict a1) (VDict auth) kwargs
                       (start ∅)).2) as Hmade.
  { assert (keyword_repeated (auth ∪ kwargs) = false) as Hkw by reflexivity.
    assert (resource_group_check_existence memory_client "rg" auth ∅ = (false, ∅))
      as Hcheck by reflexivity.
    pose (g := group_record "rg" (VStr "westus") VNone (VDict a1)).
    assert (resource_group_create_or_update memory_client "rg" (VStr "westus") VNone
              (VDict a1) (auth ∪ kwargs) ∅ = (g, {[ "rg" := g ]})) as Hcreate by reflexivity.
    assert (resource_group_check_existence memory_client "rg" auth {[ "rg" := g ]}
            = (true, {[ "rg" := g ]})) as Hrecheck by reflexivity.
    unfold start.
    rewrite (present_missing_apply_run memory_client dictdiffer_deep_diff false opaque_repr
               "rg" (VStr "westus") VNone (VDict a1) auth kwargs g true ∅ ∅ _ _ []
               eq_refl Hkw Hcheck Hcreate Hrecheck).
    cbn [snd calls app]. rewrite !elem_of_cons. right. by left. }
  pose proof (credentials_override_extra_keywords memory_client dictdiffer_deep_diff false
                opaque_repr "rg" (VStr "westus") VNone (VDict a1) auth kwargs ∅ _ Hmade)
    as Hkeys.
  split; [exact (Hkeys "subscription_id") | exact (Hkeys "region")].
Defined.

(** X6. A dry run of [resource_group_present] predicts the run with the
    flag off, from the same cloud. When the dry run answers with a result
    other than [None] (the group is already as desired), the real run
    returns the very same dictionary and leaves the same world. When it
    answers [None], the real run goes on to the request to create or
    update: that is its one mutating call, unless a keyword is passed
    twice, in which case it raises [TypeError] and mutates nothing. *)
Theorem present_dry_run_predicts_the_run
    {S} (salt : Client S) deep_diff dict_repr
    (name : string) (location managed_by tags : value) (auth kwargs : dict)
    (c : S) (r : dict) (w1 : world S) :
  resource_group_present salt deep_diff true dict_repr
    name location managed_by tags (VDict auth) kwargs (start c) = (Ret r, w1) →
  let real := resource_group_present salt deep_diff false dict_repr
                name location managed_by tags (VDict auth) kwargs (start c) in
  (r !! "result" ≠ Some VNone → real = (Ret r, w1))
  ∧ (r !! "result" = Some VNone →
     if keyword_repeated (auth ∪ kwargs)
     then real.1 = Raise TypeError ∧ mutation_count (calls real.2) = 0
     else List.filter is_mutating (calls real.2)
          = [CreateOrUpdate name location managed_by tags (auth ∪ kwargs)]).
Proof.
  run; case_answers; intros [= <- <-]; cbn [fst snd calls app];
    (split; [intros Hresult; try reflexivity; by destruct Hresult
            | intros Hresult; try discriminate Hresult; done]).
Qed.

Lemma present_dry_run_predicts_on_memory :
  let g := group_record "rg" (VStr "westus") VNone (VDict a1) in
  let real := resource_group_present memory_client dictdiffer_deep_diff false opaque_repr
                "rg" (VStr "westus") VNone (VDict a1) (VDict ∅) ∅
                (start {[ "rg" := g ]}) in
  real = (Ret (result_dict "rg" (VBool true) "Resource group rg is already present." ∅),
          World {[ "rg" := g ]} [CheckExistence "rg" ∅; Get "rg" ∅]).
Proof.
  intros g real.
  assert (resource_group_check_existence memory_client "rg" ∅ {[ "rg" := g ]}
          = (true, {[ "rg" := g ]})) as Hcheck by reflexivity.
  assert (resource_group_get memory_client "rg" ∅ {[ "rg" := g ]}
          = (g, {[ "rg" := g ]})) as Hget by reflexivity.
  assert (dictdiffer_deep_diff (dict_get g "tags" (VDict ∅)) (py_or (VDict a1) (VDict ∅))
          = Ret ∅) as Hdiff by (by apply dictdiffer_deep_diff_empty_iff).
  pose proof (present_no_drift_run memory_client dictdiffer_deep_diff true opaque_repr
                "rg" (VStr "westus") VNone (VDict a1) ∅ ∅ g _ _ _ [] Hcheck Hget Hdiff)
    as Hdry.
  apply (proj1 (present_dry_run_predicts_the_run memory_client dictdiffer_deep_diff
                  opaque_repr "rg" (VStr "westus") VNone (VDict a1) ∅ ∅ _ _ _ Hdry)).
  discriminate.
Defined.

(** X7. A dry run of [resource_group_absent] predicts the run with the flag
    off, from the same cloud. When the dry run answers with a result other
    than [None] (the group is already gone), the real run returns the very
    same dictionary and leaves the same world. When it answers [None], the
    real run requests the deletion, and that is its one mutating call. *)
Theorem absent_dry_run_predicts_the_run
    {S} (salt : Client S) (name : string) (auth : dict)
    (c : S) (r : dict) (w1 : world S) :
  resource_group_absent salt true name (VDict auth) (start c) = (Ret r, w1) →
  let real := resource_group_absent salt false name (VDict auth) (start c) in
  (r !! "result" ≠ Some VNone → real = (Ret r, w1))
  ∧ (r !! "result" = Some VNone →
     List.filter is_mutating (calls real.2) = [Delete name auth]).
Proof.
  run; case_answers; intros [= <- <-]; cbn [fst snd calls app];
    (split; [intros Hresult; try reflexivity; by destruct Hresult
            | intros Hresult; try discriminate Hresult; done]).
Qed.

Lemma absent_dry_run_predicts_on_memory :
  let g := group_record "rg" (VStr "westus") VNone (VDict a1) in
  List.filter is_mutating
    (calls (resource_group_absent memory_client false "rg" (VDict ∅)
              (start {[ "rg" := g ]})).2)
  = [Delete "rg" ∅].
Proof.
  intros g.
  assert (resource_group_check_existence memory_client "rg" ∅ {[ "rg" := g ]}
          = (true, {[ "rg" := g ]})) as Hcheck by reflexivity.
  assert (resource_group_get memory_client "rg" ∅ {[ "rg" := g ]}
          = (g, {[ "rg" := g ]})) as Hget by reflexivity.
  pose proof (absent_dry_run memory_client true "rg" ∅ g _ _ _ [] eq_refl Hcheck Hget)
    as Hdry.
  apply (proj2 (absent_dry_run_predicts_the_run memory_client "rg" ∅ _ _ _ Hdry)).
  reflexivity.
Defined.

(** X8. Over a client whose reads leave the cloud alone, a dry run of
    either state function leaves the cloud exactly as it found it, whatever
    the arguments. *)
Theorem dry_run_leaves_the_cloud
    {S} (salt : Client S) deep_diff dict_repr
    (name : string) (location managed_by tags connection_auth : value)
    (kwargs : dict) (c : S) :
  reads_keep_cloud salt →
  cloud (resource_group_present salt deep_diff true dict_repr
           name location managed_by tags connection_auth kwargs (start c)).2 = c
  ∧ cloud (resource_group_absent salt true name connection_auth (start c)).2 = c.
Proof.
  intros Hreads.
  destruct connection_auth as [| |?|auth]; try (split; reflexivity).
  split; run; case_answers; cbn [snd cloud]; keep_cloud Hreads; reflexivity.
Qed.

Lemma dry_run_leaves_the_memory_cloud :
  let g := group_record "rg" (VStr "westus") VNone (VDict a1) in
  cloud (resource_group_present memory_client dictdiffer_deep_diff true opaque_repr
           "rg" (VStr "westus") VNone (VDict a1b2) (VDict ∅) ∅ (start {[ "rg" := g ]})).2
    = {[ "rg" := g ]}
  ∧ cloud (resource_group_absent memory_client true "rg" (VDict ∅)
             (start {[ "rg" := g ]})).2
    = {[ "rg" := g ]}.
Proof.
  intros g.
  exact (dry_run_leaves_the_cloud memory_client dictdiffer_deep_diff opaque_repr
           "rg" (VStr "westus") VNone (VDict a1b2) (VDict ∅) ∅ {[ "rg" := g ]}
           memory_client_reads_keep_cloud).
Defined.

(** *** What a run leaves behind *)

Section Settled.

Context {S : Type} (salt : Client S).
Variable deep_diff : value → value → outcome dict.
Variable dict_repr : dict → string.
Variables (name : string) (location managed_by tags : value).
Variables (auth kwargs : dict).
Hypothesis Hreads : reads_keep_cloud salt.

Lemma check_existence_keeps (c : S) :
  resource_group_check_existence salt name auth c
  = ((resource_group_check_existence salt name auth c).1, c).
Proof.
  pose proof (proj1 (Hreads name auth c)) as Hc.
  destruct (resource_group_check_existence salt name auth c) as [p c1].
  cbn in *. by subst c1.
Qed.

Lemma get_keeps (c : S) :
  resource_group_get salt name auth c = ((resource_group_get salt name auth c).1, c).
Proof.
  pose proof (proj2 (Hreads name auth c)) as Hc.
  destruct (resource_group_get salt name auth c) as [g c1].
  cbn in *. by subst c1.
Qed.

(** After a run of [resource_group_present] that returned, over a client
    that applies the request, the group exists with the desired tags. *)
Lemma present_settles (c : S) (r1 : dict) (w1 : world S) :
  applies_mutation salt deep_diff name location managed_by tags auth (auth ∪ kwargs) →
  resource_group_present salt deep_diff false dict_repr
    name location managed_by tags (VDict auth) kwargs (start c) = (Ret r1, w1) →
  r1 !! "result" = Some (VBool true)
  ∧ (resource_group_check_existence salt name auth (cloud w1)).1 = true
  ∧ deep_diff (dict_get (resource_group_get salt name auth (cloud w1)).1 "tags" (VDict ∅))
      (py_or tags (VDict ∅)) = Ret ∅.
Proof.
  intros Happlies Hfirst. unfold start in Hfirst.
  pose proof (check_existence_keeps c) as Hcheck.
  pose proof (get_keeps c) as Hget.
  destruct (resource_group_create_or_update salt name location managed_by tags
              (auth ∪ kwargs) c) as [grp c3] eqn:Hcreate.
  pose proof (check_existence_keeps c3) as Hrecheck.
  pose proof (Happlies c) as [Hexists Hsame].
  rewrite Hcreate in Hexists, Hsame. cbn [snd] in Hexists, Hsame.
  rewrite Hexists in Hrecheck.
  destruct (resource_group_check_existence salt name auth c).1.
  - destruct (deep_diff (dict_get (resource_group_get salt name auth c).1 "tags" (VDict ∅))
                (py_or tags (VDict ∅))) as [ch | e] eqn:Hdiff.
    + destruct (decide (ch = ∅)) as [-> | Hch].
      * rewrite (present_no_drift_run salt deep_diff false dict_repr name location
                   managed_by tags auth kwargs _ c c c [] Hcheck Hget Hdiff) in Hfirst.
        injection Hfirst as <- <-. cbn [cloud].
        split; [reflexivity |]. split; [by rewrite Hcheck | exact Hdiff].
      * destruct (keyword_repeated (auth ∪ kwargs)) eqn:Hkw.
        -- rewrite (present_drift_repeated_keyword_run salt deep_diff dict_repr name
                      location managed_by tags auth kwargs _ ch c c c []
                      Hkw Hcheck Hget Hdiff Hch) in Hfirst.
           discriminate Hfirst.
        -- rewrite (present_drift_apply_run salt deep_diff false dict_repr name
                      location managed_by tags auth kwargs _ ch grp true c c c c3 c3 []
                      eq_refl Hkw Hcheck Hget Hdiff Hch Hcreate Hrecheck) in Hfirst.
           injection Hfirst as <- <-. cbn [cloud].
           split; [reflexivity |]. split; [exact Hexists | exact Hsame].
    + rewrite (present_diff_raises_run salt deep_diff false dict_repr name location
                 managed_by tags auth kwargs _ e c c c [] Hcheck Hget Hdiff) in Hfirst.
      discriminate Hfirst.
  - destruct (keyword_repeated (auth ∪ kwargs)) eqn:Hkw.
    + rewrite (present_missing_repeated_keyword_run salt deep_diff dict_repr name
                 location managed_by tags auth kwargs c c [] Hkw Hcheck) in Hfirst.
      discriminate Hfirst.
    + rewrite (present_missing_apply_run salt deep_diff false dict_repr name
                 location managed_by tags auth kwargs grp true c c c3 c3 []
                 eq_refl Hkw Hcheck Hcreate Hrecheck) in Hfirst.
      injection Hfirst as <- <-. cbn [cloud].
      split; [reflexivity |]. split; [exact Hexists | exact Hsame].
Qed.

(** After a run of [resource_group_absent], over a client that applies the
    deletion, the result is [True] and the group is gone. *)
Lemma absent_settles (c : S) :
  applies_deletion salt name auth →
  let run := resource_group_absent salt false name (VDict auth) (start c) in
  (∃ r, run.1 = Ret r ∧ r !! "result" = Some (VBool true))
  ∧ (resource_group_check_existence salt name auth (cloud run.2)).1 = false
  ∧ mutation_count (calls run.2) ≤ 1.
Proof.
  intros Hdeletes run. subst run. unfold start.
  pose proof (check_existence_keeps c) as Hcheck.
  pose proof (get_keeps c) as Hget.
  destruct (resource_group_delete salt name auth c) as [deleted c3] eqn:Hdelete.
  pose proof (check_existence_keeps c3) as Hrecheck.
  pose proof (Hdeletes c) as Hgone. rewrite Hdelete in Hgone. cbn [snd] in Hgone.
  rewrite Hgone in Hrecheck.
  destruct (resource_group_check_existence salt name auth c).1 eqn:Hexists.
  - rewrite (absent_delete_run salt false name auth _ deleted false c c c c3 c3 []
               eq_refl Hcheck Hget Hdelete Hrecheck).
    cbn [fst snd cloud calls].
    split; [eexists; split; [reflexivity |]; by destruct deleted |].
    split; [by destruct deleted | destruct deleted; cbn; lia].
  - rewrite (absent_missing_run salt false name auth c c [] Hcheck).
    cbn [fst snd cloud calls].
    split; [by eexists |]. split; [by rewrite Hcheck | cbn; lia].
Qed.

End Settled.

Lemma memory_client_applies_deletion (name : string) (auth : dict) :
  applies_deletion memory_client name auth.
Proof.
  intros c. cbn. rewrite lookup_delete_eq.
  apply bool_decide_eq_false_2. by intros [? ?].
Qed.

(** X9. What [resource_group_present] establishes. Over a client whose
    reads leave the cloud alone and which applies the request to create or
    update, every run with the dry-run flag off that returns has [result]
    [True], and in the cloud it leaves behind the group exists and the diff
    of its tags against the desired ones is empty. *)
Theorem present_establishes_the_group
    {S} (salt : Client S) deep_diff dict_repr
    (name : string) (location managed_by tags : value) (auth kwargs : dict)
    (c : S) (r1 : dict) (w1 : world S) :
  reads_keep_cloud salt →
  applies_mutation salt deep_diff name location managed_by tags auth (auth ∪ kwargs) →
  resource_group_present salt deep_diff false dict_repr
    name location managed_by tags (VDict auth) kwargs (start c) = (Ret r1, w1) →
  r1 !! "result" = Some (VBool true)
  ∧ (resource_group_check_existence salt name auth (cloud w1)).1 = true
  ∧ deep_diff (dict_get (resource_group_get salt name auth (cloud w1)).1 "tags" (VDict ∅))
      (py_or tags (VDict ∅)) = Ret ∅.
Proof.
  intros Hreads Happlies Hfirst.
  exact (present_settles salt deep_diff dict_repr name location managed_by tags
           auth kwargs Hreads c r1 w1 Happlies Hfirst).
Qed.

Lemma first_run_on_empty_memory :
  let g := group_record "rg" (VStr "westus") VNone (VDict a1b2) in
  resource_group_present memory_client dictdiffer_deep_diff false opaque_repr
    "rg" (VStr "westus") VNone (VDict a1b2) (VDict ∅) ∅ (start ∅)
  = (Ret (result_dict "rg" (VBool true) "Resource group rg has been created."
            {[ "old" := VDict ∅; "new" := VDict g ]}),
     World {[ "rg" := g ]}
       [CheckExistence "rg" ∅;
        CreateOrUpdate "rg" (VStr "westus") VNone (VDict a1b2) (∅ ∪ ∅);
        CheckExistence "rg" ∅]).
Proof.
  intros g.
  exact (present_missing_apply_run memory_client dictdiffer_deep_diff false opaque_repr
           "rg" (VStr "westus") VNone (VDict a1b2) ∅ ∅ g true ∅ ∅ {[ "rg" := g ]}
           {[ "rg" := g ]} [] eq_refl eq_refl eq_refl eq_refl eq_refl).
Qed.

Lemma present_establishes_the_group_on_memory :
  let g := group_record "rg" (VStr "westus") VNone (VDict a1b2) in
  (resource_group_check_existence memory_client "rg" ∅ {[ "rg" := g ]}).1 = true
  ∧ dictdiffer_deep_diff
      (dict_get (resource_group_get memory_client "rg" ∅ {[ "rg" := g ]}).1 "tags" (VDict ∅))
      (py_or (VDict a1b2) (VDict ∅)) = Ret ∅.
Proof.
  intros g.
  exact (proj2 (present_establishes_the_group memory_client dictdiffer_deep_diff
                  opaque_repr "rg" (VStr "westus") VNone (VDict a1b2) ∅ ∅ ∅ _ _
                  memory_client_reads_keep_cloud
                  (memory_client_applies_mutation "rg" (VStr "westus") VNone (VDict a1b2)
                     ∅ (∅ ∪ ∅) (or_intror eq_refl))
                  first_run_on_empty_memory)).
Defined.

(** X10. What [resource_group_absent] establishes. Over a client whose
    reads leave the cloud alone and which applies the deletion, every run
    with the dry-run flag off returns with [result] [True], has made at most
    one mutating call, and leaves behind a cloud in which the existence
    check says the group is gone. *)
Theorem absent_removes_the_group
    {S} (salt : Client S) (name : string) (auth : dict) (c : S) :
  reads_keep_cloud salt →
  applies_deletion salt name auth →
  let run := resource_group_absent salt false name (VDict auth) (start c) in
  (∃ r, run.1 = Ret r ∧ r !! "result" = Some (VBool true))
  ∧ (resource_group_check_existence salt name auth (cloud run.2)).1 = false
  ∧ mutation_count (calls run.2) ≤ 1.
Proof.
  intros Hreads Hdeletes.
  exact (absent_settles salt name auth Hreads c Hdeletes).
Qed.

Lemma absent_removes_the_group_on_memory :
  let g := group_record "rg" (VStr "westus") VNone (VDict a1) in
  let run := resource_group_absent memory_client false "rg" (VDict ∅)
               (start {[ "rg" := g ]}) in
  (∃ r, run.1 = Ret r ∧ r !! "result" = Some (VBool true))
  ∧ (resource_group_check_existence memory_client "rg" ∅ (cloud run.2)).1 = false
  ∧ mutation_count (calls run.2) ≤ 1.
Proof.
  intros g.
  exact (absent_removes_the_group memory_client "rg" ∅ {[ "rg" := g ]}
           memory_client_reads_keep_cloud (memory_client_applies_deletion "rg" ∅)).
Defined.

(** X11. [resource_group_absent] is idempotent. Over a client whose reads
    leave the cloud alone and which applies the deletion, a second run
    (dry-run flag off) right after a first one makes the existence check
    and nothing else, and answers "already absent" with no changes. *)
Theorem absent_twice_is_a_no_op
    {S} (salt : Client S) (name : string) (auth : dict) (c : S) :
  reads_keep_cloud salt →
  applies_deletion salt name auth →
  let first := resource_group_absent salt false name (VDict auth) (start c) in
  resource_group_absent salt false name (VDict auth) (start (cloud first.2))
  = (Ret (result_dict name (VBool true)
            ("Resource group " +:+ name +:+ " is already absent.") ∅),
     World (cloud first.2) [CheckExistence name auth]).
Proof.
  intros Hreads Hdeletes first.
  destruct (absent_settles salt name auth Hreads c Hdeletes) as (_ & Hgone & _).
  fold first in Hgone.
  pose proof (check_existence_keeps salt name auth Hreads (cloud first.2)) as Hcheck.
  rewrite Hgone in Hcheck.
  exact (absent_missing_run salt false name auth _ _ [] Hcheck).
Qed.

Lemma absent_twice_on_memory :
  let g := group_record "rg" (VStr "westus") VNone (VDict a1) in
  let first := resource_group_absent memory_client false "rg" (VDict ∅)
                 (start {[ "rg" := g ]}) in
  resource_group_absent memory_client false "rg" (VDict ∅) (start (cloud first.2))
  = (Ret (result_dict "rg" (VBool true) "Resource group rg is already absent." ∅),
     World (cloud first.2) [CheckExistence "rg" ∅]).
Proof.
  intros g.
  exact (absent_twice_is_a_no_op memory_client "rg" ∅ {[ "rg" := g ]}
           memory_client_reads_keep_cloud (memory_client_applies_deletion "rg" ∅)).
Defined.

(** X12. Absent after present. Over a client whose reads leave the cloud
    alone and which applies both requests, once a run of
    [resource_group_present] has returned, a run of [resource_group_absent]
    (both with the dry-run flag off) deletes the group: its one mutating
    call is the deletion, it answers [True] with "has been deleted" and the
    fetched record as the old state, and the group is gone afterwards. *)
Theorem absent_after_present_deletes
    {S} (salt : Client S) deep_diff dict_repr
    (name : string) (location managed_by tags : value) (auth kwargs : dict)
    (c : S) (r1 : dict) (w1 : world S) :
  reads_keep_cloud salt →
  applies_mutation salt deep_diff name location managed_by tags auth (auth ∪ kwargs) →
  applies_deletion salt name auth →
  resource_group_present salt deep_diff false dict_repr
    name location managed_by tags (VDict auth) kwargs (start c) = (Ret r1, w1) →
  let run := resource_group_absent salt false name (VDict auth) (start (cloud w1)) in
  run.1 = Ret (result_dict name (VBool true)
                 ("Resource group " +:+ name +:+ " has been deleted.")
                 {[ "old" := VDict (resource_group_get salt name auth (cloud w1)).1;
                    "new" := VDict ∅ ]})
  ∧ List.filter is_mutating (calls run.2) = [Delete name auth]
  ∧ (resource_group_check_existence salt name auth (cloud run.2)).1 = false.
Proof.
  intros Hreads Happlies Hdeletes Hfirst run.
  destruct (present_settles salt deep_diff dict_repr name location managed_by tags
              auth kwargs Hreads c r1 w1 Happlies Hfirst) as (_ & Hexists & _).
  pose proof (check_existence_keeps salt name auth Hreads (cloud w1)) as Hcheck.
  rewrite Hexists in Hcheck.
  pose proof (get_keeps salt name auth Hreads (cloud w1)) as Hget.
  destruct (resource_group_delete salt name auth (cloud w1)) as [deleted c3] eqn:Hdelete.
  pose proof (check_existence_keeps salt name auth Hreads c3) as Hrecheck.
  pose proof (Hdeletes (cloud w1)) as Hgone.
  rewrite Hdelete in Hgone. cbn [snd] in Hgone. rewrite Hgone in Hrecheck.
  subst run. unfold start.
  rewrite (absent_delete_run salt false name auth _ deleted false _ _ _ c3 c3 []
             eq_refl Hcheck Hget Hdelete Hrecheck).
  cbn [fst snd cloud calls].
  split; [by destruct deleted |].
  split; [by destruct deleted | by destruct deleted].
Qed.

Lemma absent_after_present_on_memory :
  let g := group_record "rg" (VStr "westus") VNone (VDict a1b2) in
  let run := resource_group_absent memory_client false "rg" (VDict ∅)
               (start {[ "rg" := g ]}) in
  List.filter is_mutating (calls run.2) = [Delete "rg" ∅]
  ∧ (resource_group_check_existence memory_client "rg" ∅ (cloud run.2)).1 = false.
Proof.
  intros g.
  exact (proj2 (absent_after_present_deletes memory_client dictdiffer_deep_diff
                  opaque_repr "rg" (VStr "westus") VNone (VDict a1b2) ∅ ∅ ∅ _ _
                  memory_client_reads_keep_cloud
                  (memory_client_applies_mutation "rg" (VStr "westus") VNone (VDict a1b2)
                     ∅ (∅ ∪ ∅) (or_intror eq_refl))
                  (memory_client_applies_deletion "rg" ∅)
                  first_run_on_empty_memory)).
Defined.

(** X13. Present after absent. Over a client whose reads leave the cloud
    alone and which applies both requests, and with no keyword passed
    twice, a run of [resource_group_present] right after a run of
    [resource_group_absent] (both with the dry-run flag off) finds the
    group missing and creates it: existence check, request, existence
    check, and the answer [True] with "has been created" and the client's
    record as the new state. *)
Theorem present_after_absent_creates
    {S} (salt : Client S) deep_diff dict_repr
    (name : string) (location managed_by tags : value) (auth kwargs : dict) (c : S) :
  reads_keep_cloud salt →
  applies_mutation salt deep_diff name location managed_by tags auth (auth ∪ kwargs) →
  applies_deletion salt name auth →
  keyword_repeated (auth ∪ kwargs) = false →
  let c1 := cloud (resource_group_absent salt false name (VDict auth) (start c)).2 in
  let request :=
    resource_group_create_or_update salt name location managed_by tags (auth ∪ kwargs) c1 in
  resource_group_present salt deep_diff false dict_repr
    name location managed_by tags (VDict auth) kwargs (start c1)
  = (Ret (result_dict name (VBool true)
            ("Resource group " +:+ name +:+ " has been created.")
            {[ "old" := VDict ∅; "new" := VDict request.1 ]}),
     World request.2
       [CheckExistence name auth;
        CreateOrUpdate name location managed_by tags (auth ∪ kwargs);
        CheckExistence name auth]).
Proof.
  intros Hreads Happlies Hdeletes Hkw c1 request.
  destruct (absent_settles salt name auth Hreads c Hdeletes) as (_ & Hgone & _).
  fold c1 in Hgone.
  pose proof (check_existence_keeps salt name auth Hreads c1) as Hcheck.
  rewrite Hgone in Hcheck.
  destruct request as [grp c3] eqn:Hcreate. cbn [fst snd].
  pose proof (check_existence_keeps salt name auth Hreads c3) as Hrecheck.
  pose proof (Happlies c1) as [Hexists _].
  fold request in Hexists. rewrite Hcreate in Hexists. cbn [snd] in Hexists.
  rewrite Hexists in Hrecheck.
  exact (present_missing_apply_run salt deep_diff false dict_repr name location
           managed_by tags auth kwargs grp true c1 c1 c3 c3 []
           eq_refl Hkw Hcheck Hcreate Hrecheck).
Qed.

Lemma present_after_absent_on_memory :
  let g := group_record "rg" (VStr "westus") VNone (VDict a1) in
  let c1 := cloud (resource_group_absent memory_client false "rg" (VDict ∅)
                     (start {[ "rg" := g ]})).2 in
  let request :=
    resource_group_create_or_update memory_client "rg" (VStr "westus") VNone (VDict a1b2)
      (∅ ∪ ∅) c1 in
  resource_group_present memory_client dictdiffer_deep_diff false opaque_repr
    "rg" (VStr "westus") VNone (VDict a1b2) (VDict ∅) ∅ (start c1)
  = (Ret (result_dict "rg" (VBool true) "Resource group rg has been created."
            {[ "old" := VDict ∅; "new" := VDict request.1 ]}),
     World request.2
       [CheckExistence "rg" ∅;
        CreateOrUpdate "rg" (VStr "westus") VNone (VDict a1b2) (∅ ∪ ∅);
        CheckExistence "rg" ∅]).
Proof.
  intros g.
  assert (keyword_repeated ((∅ : dict) ∪ ∅) = false) as Hkw by reflexivity.
  exact (present_after_absent_creates memory_client dictdiffer_deep_diff opaque_repr
           "rg" (VStr "westus") VNone (VDict a1b2) ∅ ∅ {[ "rg" := g ]}
           memory_client_reads_keep_cloud
           (memory_client_applies_mutation "rg" (VStr "westus") VNone (VDict a1b2)
              ∅ (∅ ∪ ∅) (or_intror eq_refl))
           (memory_client_applies_deletion "rg" ∅) Hkw).
Defined.

(** X14. A confirmed change is reported as a creation, whether the group
    was missing or existed with other tags. With the dry-run flag off, no
    keyword passed twice and the closing existence check finding the group,
    the returned dictionary has [result] [True], the comment "Resource
    group NAME has been created." and as changes an empty old state and the
    client's record as the new one. The tags the group had before an
    update are not part of what is returned. *)
Theorem confirmed_change_is_reported_as_creation
    {S} (salt : Client S) deep_diff dict_repr
    (name : string) (location managed_by tags : value) (auth kwargs : dict)
    (grp : dict) (c c' c3 c4 : S) :
  change_needed salt deep_diff name tags auth c c' →
  keyword_repeated (auth ∪ kwargs) = false →
  resource_group_create_or_update salt name location managed_by tags (auth ∪ kwargs) c'
    = (grp, c3) →
  resource_group_check_existence salt name auth c3 = (true, c4) →
  (resource_group_present salt deep_diff false dict_repr
     name location managed_by tags (VDict auth) kwargs (start c)).1
  = Ret (result_dict name (VBool true)
           ("Resource group " +:+ name +:+ " has been created.")
           {[ "old" := VDict ∅; "new" := VDict grp ]}).
Proof.
  intros [Hcheck | (c1 & g & ch & Hcheck & Hget & Hdiff & Hch)] Hkw Hcreate Hrecheck;
    unfold start.
  - by rewrite (present_missing_apply_run salt deep_diff false dict_repr name location
                  managed_by tags auth kwargs grp true c c' c3 c4 []
                  eq_refl Hkw Hcheck Hcreate Hrecheck).
  - by rewrite (present_drift_apply_run salt deep_diff false dict_repr name location
                  managed_by tags auth kwargs g ch grp true c c1 c' c3 c4 []
                  eq_refl Hkw Hcheck Hget Hdiff Hch Hcreate Hrecheck).
Qed.

Lemma tag_update_on_memory_is_reported_as_creation :
  let g := group_record "rg" (VStr "westus") VNone (VDict a1) in
  let g' := group_record "rg" (VStr "westus") VNone (VDict a1b2) in
  (resource_group_present memory_client dictdiffer_deep_diff false opaque_repr
     "rg" (VStr "westus") VNone (VDict a1b2) (VDict ∅) ∅ (start {[ "rg" := g ]})).1
  = Ret (result_dict "rg" (VBool true) "Resource group rg has been created."
           {[ "old" := VDict ∅; "new" := VDict g' ]}).
Proof.
  intros g g'.
  assert (change_needed memory_client dictdiffer_deep_diff "rg" (VDict a1b2) ∅
            {[ "rg" := g ]} {[ "rg" := g ]}) as Hneed.
  { right. exists {[ "rg" := g ]}, g, {[ "new" := VDict {[ "b" := VStr "2" ]} ]}.
    split; [reflexivity |]. split; [reflexivity |].
    split; [exact diff_a1_a1b2 | apply map_non_empty_singleton]. }
  assert (keyword_repeated ((∅ : dict) ∪ ∅) = false) as Hkw by reflexivity.
  assert (resource_group_create_or_update memory_client "rg" (VStr "westus") VNone
            (VDict a1b2) (∅ ∪ ∅) {[ "rg" := g ]} = (g', {[ "rg" := g' ]})) as Hcreate
    by (cbn; by rewrite insert_singleton_eq).
  assert (resource_group_check_existence memory_client "rg" ∅ {[ "rg" := g' ]}
          = (true, {[ "rg" := g' ]})) as Hrecheck by reflexivity.
  exact (confirmed_change_is_reported_as_creation memory_client dictdiffer_deep_diff
           opaque_repr "rg" (VStr "westus") VNone (VDict a1b2) ∅ ∅ g' _ _ _ _
           Hneed Hkw Hcreate Hrecheck).
Defined.

(** X15. The comment of an unconfirmed change. With the dry-run flag off,
    no keyword passed twice and the closing existence check not finding the
    group, [result] is [False] and the comment is "Failed to create
    resource group NAME! (ERROR)": ERROR is the text of the [error] entry
    of the client's answer when that is a string, and the word [None] when
    the answer has no such entry. *)
Theorem unconfirmed_change_names_the_error
    {S} (salt : Client S) deep_diff dict_repr
    (name : string) (location managed_by tags : value) (auth kwargs : dict)
    (grp : dict) (c c' c3 c4 : S) :
  change_needed salt deep_diff name tags auth c c' →
  keyword_repeated (auth ∪ kwargs) = false →
  resource_group_create_or_update salt name location managed_by tags (auth ∪ kwargs) c'
    = (grp, c3) →
  resource_group_check_existence salt name auth c3 = (false, c4) →
  ∃ r,
    (resource_group_present salt deep_diff false dict_repr
       name location managed_by tags (VDict auth) kwargs (start c)).1 = Ret r
    ∧ r !! "result" = Some (VBool false)
    ∧ (grp !! "error" = None →
       r !! "comment"
       = Some (VStr ("Failed to create resource group " +:+ name +:+ "! (None)")))
    ∧ (∀ text, grp !! "error" = Some (VStr text) →
       r !! "comment"
       = Some (VStr ("Failed to create resource group " +:+ name +:+ "! ("
                     +:+ text +:+ ")"))).
Proof.
  intros [Hcheck | (c1 & g & ch & Hcheck & Hget & Hdiff & Hch)] Hkw Hcreate Hrecheck;
    unfold start.
  - rewrite (present_missing_apply_run salt deep_diff false dict_repr name location
               managed_by tags auth kwargs grp false c c' c3 c4 []
               eq_refl Hkw Hcheck Hcreate Hrecheck).
    eexists. split; [reflexivity |]. split; [reflexivity |].
    unfold dict_get. split; [intros -> | intros text ->]; reflexivity.
  - rewrite (present_drift_apply_run salt deep_diff false dict_repr name location
               managed_by tags auth kwargs g ch grp false c c1 c' c3 c4 []
               eq_refl Hkw Hcheck Hget Hdiff Hch Hcreate Hrecheck).
    eexists. split; [reflexivity |]. split; [reflexivity |].
    unfold dict_get. split; [intros -> | intros text ->]; reflexivity.
Qed.

Lemma unconfirmed_change_without_error_entry :
  let s := Script [false; false] ∅ ∅ false in
  ∃ r,
    (resource_group_present scripted_client dictdiffer_deep_diff false opaque_repr
       "rg" (VStr "westus") VNone (VDict a1) (VDict ∅) ∅ (start s)).1 = Ret r
    ∧ r !! "result" = Some (VBool false)
    ∧ r !! "comment" = Some (VStr "Failed to create resource group rg! (None)").
Proof.
  intros s.
  assert (change_needed scripted_client dictdiffer_deep_diff "rg" (VDict a1) ∅ s
            (Script [false] ∅ ∅ false)) as Hneed by (left; reflexivity).
  assert (keyword_repeated ((∅ : dict) ∪ ∅) = false) as Hkw by reflexivity.
  assert (resource_group_create_or_update scripted_client "rg" (VStr "westus") VNone
            (VDict a1) (∅ ∪ ∅) (Script [false] ∅ ∅ false)
          = (∅, Script [false] ∅ ∅ false)) as Hcreate by reflexivity.
  assert (resource_group_check_existence scripted_client "rg" ∅ (Script [false] ∅ ∅ false)
          = (false, Script [] ∅ ∅ false)) as Hrecheck by reflexivity.
  destruct (unconfirmed_change_names_the_error scripted_client dictdiffer_deep_diff
              opaque_repr "rg" (VStr "westus") VNone (VDict a1) ∅ ∅ ∅ _ _ _ _
              Hneed Hkw Hcreate Hrecheck) as (r & Hr & Hresult & Hnone & _).
  exists r. split; [exact Hr |]. split; [exact Hresult | exact (Hnone eq_refl)].
Defined.

(** X16. What the returned dictionary tells about the calls, for both
    state functions and whatever the dry-run flag is: with a result of
    [None], or a result of [True] and no changes, no mutating call has been
    made; with a result of [True] and changes, exactly one has. (A result
    of [False] tells neither: it comes from rejected credentials, with no
    call at all, and from an unconfirmed request.) *)
Theorem result_tells_what_was_done
    {S} (salt : Client S) deep_diff opts_test dict_repr
    (name : string) (location managed_by tags connection_auth : value)
    (kwargs : dict) (c : S) :
  (∀ r w',
     resource_group_present salt deep_diff opts_test dict_repr
       name location managed_by tags connection_auth kwargs (start c) = (Ret r, w') →
     tells_what_was_done r (calls w'))
  ∧ (∀ r w',
       resource_group_absent salt opts_test name connection_auth (start c) = (Ret r, w') →
       tells_what_was_done r (calls w')).
Proof.
  split; intros r w'.
  - destruct connection_auth as [| |?|auth], opts_test; run; case_answers;
      intros [= <- <-]; unfold tells_what_was_done; cbn [calls app];
      repeat match goal with
      | H : truthy (VDict ?a) = false |- _ => apply truthy_dict_false in H; subst a
      end;
      (split; [| split]); intros Hresult; try discriminate Hresult;
      try reflexivity; intros Hchanges; try discriminate Hchanges;
      try reflexivity; by destruct Hchanges.
  - destruct connection_auth as [| |?|auth], opts_test; run; case_answers;
      intros [= <- <-]; unfold tells_what_was_done; cbn [calls app];
      (split; [| split]); intros Hresult; try discriminate Hresult;
      try reflexivity; intros Hchanges; try discriminate Hchanges;
      try reflexivity; by destruct Hchanges.
Qed.

Lemma result_tells_on_memory :
  let g := group_record "rg" (VStr "westus") VNone (VDict a1b2) in
  tells_what_was_done
    (result_dict "rg" (VBool true) "Resource group rg has been created."
       {[ "old" := VDict ∅; "new" := VDict g ]})
    [CheckExistence "rg" ∅;
     CreateOrUpdate "rg" (VStr "westus") VNone (VDict a1b2) (∅ ∪ ∅);
     CheckExistence "rg" ∅].
Proof.
  intros g.
  exact (proj1 (result_tells_what_was_done memory_client dictdiffer_deep_diff false
                  opaque_repr "rg" (VStr "westus") VNone (VDict a1b2) (VDict ∅) ∅ ∅)
           _ _ first_run_on_empty_memory).
Defined.

(** X17. What a dry run shows. For a missing group,
    [resource_group_present] previews the creation with an empty old state
    and, as the new one, the name, location, [managed_by] and tags exactly
    as they were passed, while [resource_group_absent] answers "already
    absent". For an existing group, [resource_group_absent] previews the
    deletion with the fetched record as the old state, and
    [resource_group_present], when the diff of the tags is not empty,
    previews the update with the live tags as old (the empty mapping when
    the record has no [tags] entry) and the desired tags as new. Every
    preview has [result] [None]. *)
Theorem dry_run_previews
    {S} (salt : Client S) deep_diff dict_repr
    (name : string) (location managed_by tags : value) (auth kwargs : dict) (c : S) :
  let shown :=
    (resource_group_present salt deep_diff true dict_repr
       name location managed_by tags (VDict auth) kwargs (start c)).1 in
  let shown_absent := (resource_group_absent salt true name (VDict auth) (start c)).1 in
  let found := resource_group_check_existence salt name auth c in
  let g := (resource_group_get salt name auth found.2).1 in
  (found.1 = false →
   shown = Ret (result_dict name VNone
                  ("Resource group " +:+ name +:+ " would be created.")
                  {[ "old" := VDict ∅;
                     "new" := VDict {[ "name" := VStr name; "location" := location;
                                       "managed_by" := managed_by; "tags" := tags ]} ]})
   ∧ shown_absent = Ret (result_dict name (VBool true)
                           ("Resource group " +:+ name +:+ " is already absent.") ∅))
  ∧ (found.1 = true →
     shown_absent = Ret (result_dict name VNone
                           ("Resource group " +:+ name +:+ " would be deleted.")
                           {[ "old" := VDict g; "new" := VDict ∅ ]})
     ∧ ∀ ch, deep_diff (dict_get g "tags" (VDict ∅)) (py_or tags (VDict ∅)) = Ret ch →
         ch ≠ ∅ →
         shown = Ret (result_dict name VNone
                        ("Resource group " +:+ name +:+ " tags would be updated.")
                        {[ "old" := match g !! "tags" with
                                    | Some live => live
                                    | None => VDict ∅
                                    end;
                           "new" := tags ]})).
Proof.
  intros shown shown_absent found g. subst shown shown_absent g found. unfold start.
  destruct (resource_group_check_existence salt name auth c) as [p c1] eqn:Hcheck.
  cbn [fst snd].
  destruct (resource_group_get salt name auth c1) as [g c2] eqn:Hget.
  cbn [fst snd]. split; intros ->.
  - rewrite (present_missing_dry_run salt deep_diff true dict_repr name location
               managed_by tags auth kwargs c c1 [] eq_refl Hcheck).
    by rewrite (absent_missing_run salt true name auth c c1 [] Hcheck).
  - rewrite (absent_dry_run salt true name auth g c c1 c2 [] eq_refl Hcheck Hget).
    split; [reflexivity |]. intros ch Hdiff Hch.
    by rewrite (present_drift_dry_run salt deep_diff true dict_repr name location
                  managed_by tags auth kwargs g ch c c1 c2 [] eq_refl Hcheck Hget Hdiff Hch).
Qed.

Lemma dry_run_previews_on_empty_memory :
  (resource_group_present memory_client dictdiffer_deep_diff true opaque_repr
     "rg" (VStr "westus") VNone (VDict a1) (VDict ∅) ∅ (start ∅)).1
  = Ret (result_dict "rg" VNone "Resource group rg would be created."
           {[ "old" := VDict ∅;
              "new" := VDict {[ "name" := VStr "rg"; "location" := VStr "westus";
                                "managed_by" := VNone; "tags" := VDict a1 ]} ]}).
Proof.
  assert ((resource_group_check_existence memory_client "rg" ∅ ∅).1 = false) as Hmissing
    by reflexivity.
  exact (proj1 (proj1 (dry_run_previews memory_client dictdiffer_deep_diff opaque_repr
                         "rg" (VStr "westus") VNone (VDict a1) ∅ ∅ ∅) Hmissing)).
Defined.

(** X18. The fields of what is returned. Whatever either state function
    returns is a dictionary with exactly the keys [name], [result],
    [comment] and [changes]: [name] is the name passed in; [result] is
    [True], [False] or [None], and [None] only in a dry run; [comment] is a
    string and [changes] a dictionary. For [resource_group_absent] the
    changes are always empty or an [old]/[new] pair. *)
Theorem returned_dictionary_has_the_four_fields
    {S} (salt : Client S) deep_diff opts_test dict_repr
    (name : string) (location managed_by tags connection_auth : value)
    (kwargs : dict) (w : world S) :
  (∀ r w',
     resource_group_present salt deep_diff opts_test dict_repr
       name location managed_by tags connection_auth kwargs w = (Ret r, w') →
     has_result_fields name opts_test r)
  ∧ (∀ r w',
       resource_group_absent salt opts_test name connection_auth w = (Ret r, w') →
       has_result_fields name opts_test r ∧ empty_or_old_new r).
Proof.
  destruct w as [c l].
  split; intros r w'.
  - destruct connection_auth as [| |?|auth], opts_test; run; case_answers;
      intros [= <- <-]; unfold has_result_fields.
    all: split; [reflexivity |]; split; [reflexivity |].
    all: split; [by eauto |]; split; by eexists.
  - destruct connection_auth as [| |?|auth], opts_test; run; case_answers;
      intros [= <- <-]; unfold has_result_fields, empty_or_old_new.
    all: split;
      [split; [reflexivity |]; split; [reflexivity |];
       split; [by eauto |]; split; by eexists |].
    all: eexists; split; [reflexivity |].
    all: try (left; reflexivity).
    all: right; reflexivity.
Qed.

Lemma returned_fields_on_memory :
  let g := group_record "rg" (VStr "westus") VNone (VDict a1b2) in
  has_result_fields "rg" false
    (result_dict "rg" (VBool true) "Resource group rg has been created."
       {[ "old" := VDict ∅; "new" := VDict g ]})
  ∧ has_result_fields "foo" false
      (result_dict "foo" (VBool true) "Resource group foo is already absent." ∅).
Proof.
  intros g.
  split.
  - exact (proj1 (returned_dictionary_has_the_four_fields memory_client
                    dictdiffer_deep_diff false opaque_repr "rg" (VStr "westus") VNone
                    (VDict a1b2) (VDict ∅) ∅ (start ∅))
             _ _ first_run_on_empty_memory).
  - exact (proj1 (proj2 (returned_dictionary_has_the_four_fields memory_client
                           dictdiffer_deep_diff false opaque_repr "foo" VNone VNone VNone
                           (VDict ∅) ∅ (start ∅))
                    _ _ (absent_missing_run memory_client false "foo" ∅ ∅ ∅ [] eq_refl))).
Defined.
